(** * Volume Locker Pro: a shallow embedding of [main.py]

    The development follows the layout of the script:

    - [Py]: the handful of [str] methods the script calls ([lower],
      [startswith], [split(sep, 1)], [strip], [splitlines], [in]);
    - [send_soap_request] and the two control actions
      [set_media_and_play] and [set_volume], over an explicit network;
    - the ElementTree queries used by [parse_device_descriptions], and
      the resolver itself;
    - the socket handling and the listen loop of [discover_devices];
    - the loop of [volume_setter_worker].

    A Python [str] is a [string] whose characters are read as the code
    points 0..255; a [dict] with string keys is a [gmap string _]; a [set]
    of strings is a [gset string].  The network, the XML parser, [urljoin]
    and the clock are not part of the script: they are variables of the
    section [Script].  Exceptions are written out: a call that can raise
    returns a sum or an option, and the handlers of the script are the
    matches on it.  The texts that the script prints are rich markup: a
    text made of the words of the script alone is well formed; a text that
    carries a friendly name or a location taken from the network is
    rendered or raises [MarkupError], and the variable [renders] tells
    which, for the messages of [set_media_and_play], for the table of
    [print_discovered_devices] and for the dialogue of [main].  The logs
    of the handlers of [discover_devices] and [parse_device_descriptions],
    which carry the text of an exception, are left out: these two loops
    are described for logs that are rendered.  The spinner is left out. *)

From Stdlib Require Import ZArith NArith Ascii String List Lia Bool.
From stdpp Require Import base option list gmap strings pretty.


(* ===================================================================== *)
(** ** The [str] methods used by the script *)
(* ===================================================================== *)

Module Py.

Definition code (c : ascii) : N := N_of_ascii c.

(** The characters of the range 0..255 that [lower] changes: the letters
    [A]..[Z] and the accented capitals U+00C0..U+00DE without U+00D7. *)
Definition is_upper (c : ascii) : bool :=
  let n := code c in
  ((65 <=? n) && (n <=? 90))%N
  || ((192 <=? n) && (n <=? 222) && negb (n =? 215))%N.

Definition lower_char (c : ascii) : ascii :=
  if is_upper c then ascii_of_N (code c + 32) else c.

(** [s.lower()] *)
Fixpoint lower (s : string) : string :=
  match s with
  | EmptyString => EmptyString
  | String c s' => String (lower_char c) (lower s')
  end.

(** [s.startswith(p)] *)
Definition startswith (s p : string) : bool := String.prefix p s.

(** [str.isspace] on one character of the range 0..255. *)
Definition is_space (c : ascii) : bool :=
  let n := code c in
  ((9 <=? n) && (n <=? 13))%N || ((28 <=? n) && (n <=? 32))%N
  || (n =? 133)%N || (n =? 160)%N.

Fixpoint lstrip (s : string) : string :=
  match s with
  | EmptyString => EmptyString
  | String c s' => if is_space c then lstrip s' else s
  end.

Fixpoint rstrip (s : string) : string :=
  match s with
  | EmptyString => EmptyString
  | String c s' =>
      match rstrip s' with
      | EmptyString => if is_space c then EmptyString else String c EmptyString
      | r => String c r
      end
  end.

(** [s.strip()] *)
Definition strip (s : string) : string := rstrip (lstrip s).

(** [s.split(sep, 1)] when [sep] occurs in [s]: the text before the first
    occurrence and the text after it.  [None] when [sep] does not occur:
    the list Python returns has then one element only, and indexing it at
    [1] raises [IndexError]. *)
Fixpoint split_once (sep : ascii) (s : string) : option (string * string) :=
  match s with
  | EmptyString => None
  | String c s' =>
      if Ascii.eqb c sep then Some (EmptyString, s')
      else match split_once sep s' with
           | Some (a, b) => Some (String c a, b)
           | None => None
           end
  end.

(** The line boundaries of [str.splitlines] in the range 0..255:
    LF, VT, FF, CR, FS, GS, RS and NEL. *)
Definition is_linebreak (c : ascii) : bool :=
  let n := code c in
  ((10 <=? n) && (n <=? 13))%N || ((28 <=? n) && (n <=? 30))%N
  || (n =? 133)%N.

Definition is_cr (c : ascii) : bool := (code c =? 13)%N.
Definition is_lf (c : ascii) : bool := (code c =? 10)%N.

(** [splitlines_go prev_cr cur s]: [cur] is the current line, reversed;
    [prev_cr] tells that the last character read was a CR, so that a LF
    coming next belongs to the same boundary. *)
Fixpoint splitlines_go (prev_cr : bool) (cur : string) (s : string)
  : list string :=
  match s with
  | EmptyString =>
      match cur with
      | EmptyString => []
      | _ => [String.rev cur]
      end
  | String c s' =>
      if prev_cr && is_lf c then splitlines_go false cur s'
      else if is_linebreak c
           then String.rev cur :: splitlines_go (is_cr c) EmptyString s'
           else splitlines_go false (String c cur) s'
  end.

(** [s.splitlines()] *)
Definition splitlines (s : string) : list string :=
  splitlines_go false EmptyString s.

(** [sub in s] *)
Fixpoint contains (sub s : string) : bool :=
  String.prefix sub s
  || match s with
     | EmptyString => false
     | String _ s' => contains sub s'
     end.

(** A string made of white space only (the empty string is one). *)
Fixpoint all_space (s : string) : bool :=
  match s with
  | EmptyString => true
  | String c s' => is_space c && all_space s'
  end.

(** The double quote, U+0022, and the line feed, U+000A. *)
Definition dquote : string := String "034"%char EmptyString.
Definition nl : string := String "010"%char EmptyString.

(** The end of a header line, CR LF. *)
Definition crlf : string := String "013"%char nl.

End Py.

(* ===================================================================== *)
(** ** The network: what [requests] gives back *)
(* ===================================================================== *)

(** What is handed to [requests.post]. *)
Record Request := {
  req_url : string;
  req_data : string;
  req_headers : gmap string string;
  req_timeout : Z
}.

(** A [requests.Response]: the status code, the final URL (after
    redirects) and the body. *)
Record Response := {
  status_code : Z;
  url : string;
  content : string
}.

(** The subclasses of [requests.exceptions.RequestException], which is
    what [requests] raises for a request that fails. *)
Inductive RequestException :=
| ConnectionError
| ConnectTimeout
| ReadTimeout
| TooManyRedirects
| InvalidURL
| HTTPError (r : Response).

(** One call of the script to the network. *)
Inductive NetCall :=
| Post (r : Request)
| Get (location : string) (timeout : Z).

(** [Response.raise_for_status]: raises [HTTPError] for the client errors
    400..499 and the server errors 500..599, and for no other status. *)
Definition raise_for_status (r : Response) : option RequestException :=
  if ((400 <=? status_code r) && (status_code r <? 600))%Z
  then Some (HTTPError r) else None.

Definition is_2xx (r : Response) : bool :=
  ((200 <=? status_code r) && (status_code r <? 300))%Z.

(** A service endpoint, [{'type': ..., 'url': ...}]. *)
Record Service := {
  service_type : string;
  control_url : string
}.

(** A device record,
    [{'location': ..., 'friendly_name': ..., 'services': {...}}]. *)
Record DeviceInfo := {
  location : string;
  friendly_name : string;
  services : gmap string Service
}.

Definition AVTransport : string := "AVTransport".
Definition RenderingControl : string := "RenderingControl".


(* ===================================================================== *)
(** ** ElementTree *)
(* ===================================================================== *)

(** An [xml.etree.ElementTree.Element]: its tag in Clark notation
    ([{namespace}local]), its [text] ([None] when the element has no
    character data before its first child) and its children in document
    order. *)
#[warnings="-register-all"]
Inductive Element :=
| Elem (tag : string) (text : option string) (children : list Element).

Definition tag (e : Element) : string :=
  match e with Elem t _ _ => t end.

Definition text (e : Element) : option string :=
  match e with Elem _ x _ => x end.

Definition children (e : Element) : list Element :=
  match e with Elem _ _ cs => cs end.

(** [e.iter()]: [e], then its descendants, in document order. *)
Fixpoint iter (e : Element) : list Element :=
  match e with
  | Elem _ _ cs =>
      e :: (fix iter_all (l : list Element) : list Element :=
              match l with
              | [] => []
              | c :: l' => iter c ++ iter_all l'
              end) cs
  end.

(** The elements below [e], in document order: what [.//] ranges over
    (ElementPath yields the elements of [e.iter(tag)] other than [e]). *)
Definition descendants (e : Element) : list Element :=
  flat_map iter (children e).

Definition has_tag (t : string) (e : Element) : bool :=
  String.eqb (tag e) t.

(** [{'root': 'urn:schemas-upnp-org:device-1-0'}]: the path step
    [root:name] stands for the tag [{urn:schemas-upnp-org:device-1-0}name]. *)
Definition UPNP_NS : string := "urn:schemas-upnp-org:device-1-0".

Definition root_ (name : string) : string :=
  "{" +:+ UPNP_NS +:+ "}" +:+ name.

(** [e.find('.//root:name', UPNP_NS)] *)
Definition find_descendant (name : string) (e : Element) : option Element :=
  head (filter (λ x, has_tag (root_ name) x = true) (descendants e)).

(** [e.find('root:name', UPNP_NS)] *)
Definition find (name : string) (e : Element) : option Element :=
  head (filter (λ x, has_tag (root_ name) x = true) (children e)).

(** [e.findall('root:name', UPNP_NS)] *)
Definition findall (name : string) (e : Element) : list Element :=
  filter (λ x, has_tag (root_ name) x = true) (children e).

(* ===================================================================== *)
(** ** Sockets, the stop event and what the threads do *)
(* ===================================================================== *)

(** What happens to one interface in the binding loop of
    [discover_devices]. *)
Inductive IfaceOutcome :=
| NoIPv4       (* [ifaddresses(iface).get(AF_INET)] is empty: [continue] *)
| SocketError  (* [socket.socket(...)] raises [OSError] *)
| BindError    (* the socket is created, [sock.bind] raises [OSError] *)
| Bound.       (* the socket is created, bound and appended to [sockets] *)

(** What one [sock.recvfrom(2048)] of the listen loop does: the three
    branches of the [try], and an interrupt ([KeyboardInterrupt], which
    is no [Exception] and which [main] expects).  [RecvData] carries the
    datagram as [data.decode('utf-8', errors='ignore')] gives it. *)
Inductive RecvOutcome :=
| RecvTimeout
| RecvError
| RecvData (response : string)
| RecvInterrupt.

(** Everything [discover_devices] asks of the machine it runs on.
    [env_passes] is the number of passes of the [while] loop that fit in
    [SSDP_TIMEOUT] seconds; [env_recv pass fd] is what the [recvfrom] of
    that pass on that socket does. *)
Record Env := {
  env_interfaces : option (list string);
  env_iface : string → IfaceOutcome;
  env_passes : nat;
  env_recv : nat → nat → RecvOutcome
}.

(** The sockets of the process: the next descriptor, and the sockets
    created and not closed, oldest first. *)
Record SockState := {
  next_fd : nat;
  open_fds : list nat
}.

(** A computation that returns, or that an interrupt leaves. *)
Inductive Flow (A : Type) :=
| Normal (a : A)
| Interrupted.

(** What a function that prints returns: its value, or the
    [MarkupError] that rich raises on a text that is not well-formed
    markup. *)
Inductive Printing (A : Type) :=
| Returns (a : A)
| MarkupError.

Arguments Returns {A} a.
Arguments MarkupError {A}.

Arguments Normal {A} a.
Arguments Interrupted {A}.

(** A [threading.Event] that is never cleared: the instant at which the
    other thread calls [set], if it ever does. *)
Record StopEvent := {
  set_at : option N
}.

(** What the worker thread does, in order. *)
Inductive WorkerStep :=
| CallSetVolume (success : bool)
| AcquireLock
| WriteStatus (success : bool)
| ReleaseLock
| WaitStop (since until : N).

(* ===================================================================== *)
(** ** The script *)
(* ===================================================================== *)

Section Script.

(** The state of everything outside the script that answers HTTP.
    [requests_post] and [requests_get] give the answer to one request: the
    exception that [requests] raises, or the response it returns. *)
Variable World : Type.
Variable requests_post :
  World → Request → (RequestException + Response) * World.
Variable requests_get :
  World → string → Z → (RequestException + Response) * World.

(** [ET.fromstring]: [None] when it raises [ParseError]. *)
Variable fromstring : string → option Element.

(** [urllib.parse.urljoin]: [None] when it raises [ValueError]. *)
Variable urljoin : string → string → option string.

(** [console.print(text)] on a text that carries a name or a location
    taken from the network: [true] when rich renders the markup of the
    text, [false] when it raises [MarkupError]. *)
Variable renders : string → bool.

(** The time one call of [set_volume] takes, in ticks of the clock. *)
Variable set_volume_time : World → N.

(** The network as the script sees it: the outside world, and the calls
    made so far, oldest first. *)
Record Net := {
  world : World;
  calls : list NetCall
}.

(** *** [send_soap_request] *)

Definition soap_body (service_type action arguments : string) : string :=
  "<?xml version=" +:+ Py.dquote +:+ "1.0" +:+ Py.dquote
  +:+ " encoding=" +:+ Py.dquote +:+ "utf-8" +:+ Py.dquote +:+ "?>" +:+ Py.nl
  +:+ "<s:Envelope xmlns:s=" +:+ Py.dquote
  +:+ "http://schemas.xmlsoap.org/soap/envelope/" +:+ Py.dquote
  +:+ " s:encodingStyle=" +:+ Py.dquote
  +:+ "http://schemas.xmlsoap.org/soap/encoding/" +:+ Py.dquote
  +:+ ">" +:+ Py.nl
  +:+ "    <s:Body>" +:+ Py.nl
  +:+ "        <u:" +:+ action +:+ " xmlns:u=" +:+ Py.dquote +:+ service_type
  +:+ Py.dquote +:+ ">" +:+ Py.nl
  +:+ "            " +:+ arguments +:+ Py.nl
  +:+ "        </u:" +:+ action +:+ ">" +:+ Py.nl
  +:+ "    </s:Body>" +:+ Py.nl
  +:+ "</s:Envelope>".

(** [{'Content-Type': ..., 'SOAPACTION': ..., **headers}]: the entries of
    [headers] win. *)
Definition final_headers (service_type action : string)
    (headers : gmap string string) : gmap string string :=
  headers ∪
  <["SOAPACTION" :=
      Py.dquote +:+ service_type +:+ "#" +:+ action +:+ Py.dquote]>
  (<["Content-Type" :=
      "text/xml; charset=" +:+ Py.dquote +:+ "utf-8" +:+ Py.dquote]> ∅).

Definition soap_request (control_url service_type action arguments : string)
    (headers : gmap string string) : Request :=
  {| req_url := control_url;
     req_data := soap_body service_type action arguments;
     req_headers := final_headers service_type action headers;
     req_timeout := 5 |}.

(** The response on success, [None] on failure.  The [except] clause logs
    to the console for the actions other than [SetVolume] and [GetVolume];
    that log carries the name of the action only and is left out. *)
Definition send_soap_request
    (control_url service_type action arguments : string)
    (headers : option (gmap string string)) (net : Net)
  : option Response * Net :=
  let headers := default ∅ headers in
  let rq := soap_request control_url service_type action arguments headers in
  let '(answer, w) := requests_post (world net) rq in
  let net' := {| world := w; calls := calls net ++ [Post rq] |} in
  match answer with
  | inl _ => (None, net')
  | inr response =>
      match raise_for_status response with
      | Some _ => (None, net')
      | None => (Some response, net')
      end
  end.

(** *** The control actions *)

Definition set_uri_args (media_url : string) : string :=
  "<InstanceID>0</InstanceID><CurrentURI>" +:+ media_url
  +:+ "</CurrentURI><CurrentURIMetaData></CurrentURIMetaData>".

Definition play_args : string :=
  "<InstanceID>0</InstanceID><Speed>1</Speed>".

(** The three messages of [set_media_and_play] that carry the friendly
    name. *)
Definition no_avtransport_text (name : string) : string :=
  "[bold red]Error:[/bold red] Device '" +:+ name
  +:+ "' does not support AVTransport.".

Definition setting_media_text (name : string) : string :=
  "Setting media URL on [cyan]" +:+ name +:+ "[/]...".

Definition play_sent_text (name : string) : string :=
  "[bold green]✔ Play command sent successfully to [cyan]" +:+ name
  +:+ "[/].[/bold green]".

(** The messages without a name are well formed and are left out. *)
Definition set_media_and_play (device_info : DeviceInfo)
    (media_url : string) (net : Net) : Printing bool * Net :=
  match services device_info !! AVTransport with
  | None =>
      if renders (no_avtransport_text (friendly_name device_info))
      then (Returns false, net)
      else (MarkupError, net)
  | Some av_transport =>
      if renders (setting_media_text (friendly_name device_info))
      then
        match send_soap_request (control_url av_transport)
                (service_type av_transport) "SetAVTransportURI"
                (set_uri_args media_url) None net with
        | (None, net1) => (Returns false, net1)
        | (Some _, net1) =>
            match send_soap_request (control_url av_transport)
                    (service_type av_transport) "Play" play_args None
                    net1 with
            | (Some _, net2) =>
                if renders (play_sent_text (friendly_name device_info))
                then (Returns true, net2)
                else (MarkupError, net2)
            | (None, net2) => (Returns false, net2)
            end
        end
      else (MarkupError, net)
  end.

Definition set_vol_args (volume : Z) : string :=
  "<InstanceID>0</InstanceID><Channel>Master</Channel><DesiredVolume>"
  +:+ pretty volume +:+ "</DesiredVolume>".

Definition set_volume (device_info : DeviceInfo) (volume : Z) (net : Net)
  : bool * Net :=
  match services device_info !! RenderingControl with
  | None => (false, net)
  | Some rendering_control =>
      match send_soap_request (control_url rendering_control)
              (service_type rendering_control) "SetVolume"
              (set_vol_args volume) None net with
      | (Some _, net1) => (true, net1)
      | (None, net1) => (false, net1)
      end
  end.

(** *** [parse_device_descriptions] *)

(** The body of the loop over the [service] elements: [None] when
    [urljoin] raises. *)
Definition add_service (base_url : string) (svcs : gmap string Service)
    (service : Element) : option (gmap string Service) :=
  match find "serviceType" service, find "controlURL" service with
  | Some service_type_node, Some control_url_node =>
      match text service_type_node, text control_url_node with
      | Some service_type, Some control_url_text =>
          match urljoin base_url control_url_text with
          | None => None
          | Some control_url =>
              let entry := {| service_type := service_type;
                              control_url := control_url |} in
              if Py.contains AVTransport service_type
              then Some (<[AVTransport := entry]> svcs)
              else if Py.contains RenderingControl service_type
              then Some (<[RenderingControl := entry]> svcs)
              else Some svcs
          end
      | _, _ => Some svcs
      end
  | _, _ => Some svcs
  end.

Fixpoint add_services (base_url : string) (svcs : gmap string Service)
    (l : list Element) : option (gmap string Service) :=
  match l with
  | [] => Some svcs
  | service :: l' =>
      match add_service base_url svcs service with
      | None => None
      | Some svcs' => add_services base_url svcs' l'
      end
  end.

(** What the [try] block makes of one fetched document. *)
Inductive Parsed :=
| Skipped                  (* a [continue] *)
| Failed                   (* an exception, logged *)
| Built (d : DeviceInfo).  (* [device_info], before the capability test *)

Definition build_device_info (loc : string) (response : Response) : Parsed :=
  match fromstring (content response) with
  | None => Failed
  | Some xml_root =>
      match find_descendant "device" xml_root with
      | None => Skipped
      | Some device_node =>
          match find "friendlyName" device_node with
          | None => Skipped
          | Some friendly_name_node =>
              match text friendly_name_node with
              | None => Skipped
              | Some name_text =>
                  let friendly_name := Py.strip name_text in
                  let walked :=
                    match find_descendant "serviceList" device_node with
                    | None => Some ∅
                    | Some service_list =>
                        add_services (url response) ∅
                          (findall "service" service_list)
                    end in
                  match walked with
                  | None => Failed
                  | Some svcs =>
                      Built {| location := loc;
                               friendly_name := friendly_name;
                               services := svcs |}
                  end
              end
          end
      end
  end.

(** ['AVTransport' in services or 'RenderingControl' in services] *)
Definition has_capability (d : DeviceInfo) : bool :=
  bool_decide (is_Some (services d !! AVTransport))
  || bool_decide (is_Some (services d !! RenderingControl)).

(** One pass of the loop over [locations].  The handler of the
    exceptions other than [RequestException] logs the location and the
    exception; the pass is described for a log that is rendered. *)
Definition process_location (found_devices : gmap string DeviceInfo)
    (loc : string) (net : Net) : gmap string DeviceInfo * Net :=
  let '(answer, w) := requests_get (world net) loc 3 in
  let net' := {| world := w; calls := calls net ++ [Get loc 3] |} in
  match answer with
  | inl _ => (found_devices, net')
  | inr response =>
      match raise_for_status response with
      | Some _ => (found_devices, net')
      | None =>
          match build_device_info loc response with
          | Built device_info =>
              if has_capability device_info
              then (<[friendly_name device_info := device_info]> found_devices,
                    net')
              else (found_devices, net')
          | _ => (found_devices, net')
          end
      end
  end.

Fixpoint resolve_from (found_devices : gmap string DeviceInfo)
    (locations : list string) (net : Net) : gmap string DeviceInfo * Net :=
  match locations with
  | [] => (found_devices, net)
  | loc :: rest =>
      let '(found', net') := process_location found_devices loc net in
      resolve_from found' rest net'
  end.

(** [locations] is the set in the order in which the loop visits it. *)
Definition parse_device_descriptions (locations : list string) (net : Net)
  : gmap string DeviceInfo * Net :=
  resolve_from ∅ locations net.

(** *** [discover_devices] *)

(** The binding loop: the sockets of the process and the list [sockets]
    after it. *)
Fixpoint bind_interfaces (env : Env) (interfaces : list string)
    (st : SockState) (sockets : list nat) : SockState * list nat :=
  match interfaces with
  | [] => (st, sockets)
  | iface :: rest =>
      match env_iface env iface with
      | NoIPv4 | SocketError => bind_interfaces env rest st sockets
      | BindError =>
          let fd := next_fd st in
          bind_interfaces env rest
            {| next_fd := S fd; open_fds := open_fds st ++ [fd] |} sockets
      | Bound =>
          let fd := next_fd st in
          bind_interfaces env rest
            {| next_fd := S fd; open_fds := open_fds st ++ [fd] |}
            (sockets ++ [fd])
      end
  end.

(** The loop over the lines of one response.  The flag is [false] when
    [line.split(':', 1)[1]] raises [IndexError], which leaves the loop
    with the values added so far. *)
Fixpoint scan_lines (locations : gset string) (lines : list string)
  : gset string * bool :=
  match lines with
  | [] => (locations, true)
  | line :: rest =>
      if Py.startswith (Py.lower line) "location:"
      then match Py.split_once ":"%char line with
           | Some (_, value) => scan_lines ({[Py.strip value]} ∪ locations) rest
           | None => (locations, false)
           end
      else scan_lines locations rest
  end.

(** One [recvfrom] and what follows it in the [try]. *)
Definition receive (outcome : RecvOutcome) (locations : gset string)
  : Flow (gset string) :=
  match outcome with
  | RecvTimeout | RecvError => Normal locations
  | RecvData response => Normal (scan_lines locations (Py.splitlines response)).1
  | RecvInterrupt => Interrupted
  end.

(** One pass of the [while] loop: [for sock in sockets]. *)
Fixpoint listen_pass (recv : nat → RecvOutcome) (sockets : list nat)
    (locations : gset string) : Flow (gset string) :=
  match sockets with
  | [] => Normal locations
  | sock :: rest =>
      match receive (recv sock) locations with
      | Normal locations' => listen_pass recv rest locations'
      | Interrupted => Interrupted
      end
  end.

(** The [while] loop: [passes] more passes, the next one being number
    [pass]. *)
Fixpoint listen (env : Env) (passes pass : nat) (sockets : list nat)
    (locations : gset string) : Flow (gset string) :=
  match passes with
  | O => Normal locations
  | S passes' =>
      match listen_pass (env_recv env pass) sockets locations with
      | Normal locations' => listen env passes' (S pass) sockets locations'
      | Interrupted => Interrupted
      end
  end.

(** [for sock in sockets: sock.close()] *)
Definition close_all (sockets : list nat) (st : SockState) : SockState :=
  {| next_fd := next_fd st;
     open_fds := filter (λ fd, fd ∉ sockets) (open_fds st) |}.

(** What a call of [discover_devices] leaves behind. *)
Record Discovered := {
  result : Flow (gmap string DeviceInfo);
  found_locations : gset string;
  sock_state : SockState;
  net_after : Net
}.

(** The spinner and the console are not modelled, nor is the loop that
    sends the probe: it catches every [Exception] and touches neither the
    sockets nor [locations].  The set [locations] is handed to
    [parse_device_descriptions] in the order of [elements]. *)
Definition discover_devices (env : Env) (st : SockState) (net : Net)
  : Discovered :=
  match env_interfaces env with
  | None =>
      {| result := Normal ∅; found_locations := ∅;
         sock_state := st; net_after := net |}
  | Some interfaces =>
      let '(st1, sockets) := bind_interfaces env interfaces st [] in
      match sockets with
      | [] =>
          {| result := Normal ∅; found_locations := ∅;
             sock_state := st1; net_after := net |}
      | _ =>
          match listen env (env_passes env) 0 sockets ∅ with
          | Interrupted =>
              {| result := Interrupted; found_locations := ∅;
                 sock_state := st1; net_after := net |}
          | Normal locations =>
              let st2 := close_all sockets st1 in
              let '(devices, net') :=
                parse_device_descriptions (elements locations) net in
              {| result := Normal devices; found_locations := locations;
                 sock_state := st2; net_after := net' |}
          end
      end
  end.

(** *** [volume_setter_worker] *)

(** [stop_event.is_set()] at instant [now]. *)
Definition is_set (ev : StopEvent) (now : N) : bool :=
  match set_at ev with
  | Some t => (t <=? now)%N
  | None => false
  end.

(** [stop_event.wait(timeout)] entered at instant [now]: the instant at
    which it returns.  It returns at once when the flag is set on entry,
    when [set] is called if that comes before the timeout, and at the
    timeout otherwise. *)
Definition wait (ev : StopEvent) (now timeout : N) : N :=
  match set_at ev with
  | Some t => if (t <=? now)%N then now else N.min t (now + timeout)
  | None => (now + timeout)%N
  end.

(** The worker thread: the network, the clock, [shared_status['success']]
    and what it has done so far, oldest first. *)
Record Worker := {
  w_net : Net;
  w_now : N;
  w_status : bool;
  w_trace : list WorkerStep
}.

(** The body of the [while] loop. *)
Definition worker_iteration (device_info : DeviceInfo) (volume : Z)
    (stop_event : StopEvent) (interval : N) (w : Worker) : Worker :=
  let '(success, net') := set_volume device_info volume (w_net w) in
  let t1 := (w_now w + set_volume_time (world (w_net w)))%N in
  let t2 := wait stop_event t1 interval in
  {| w_net := net';
     w_now := t2;
     w_status := success;
     w_trace := w_trace w ++
       [CallSetVolume success; AcquireLock; WriteStatus success;
        ReleaseLock; WaitStop t1 t2] |}.

(** A run of the worker: it has left the loop, or it is at the top of the
    loop with the flag clear and no fuel left. *)
Inductive Run :=
| Finished (w : Worker)
| Running (w : Worker).

Fixpoint volume_setter_worker (fuel : nat) (device_info : DeviceInfo)
    (volume : Z) (stop_event : StopEvent) (interval : N) (w : Worker) : Run :=
  if is_set stop_event (w_now w) then Finished w
  else match fuel with
       | O => Running w
       | S fuel' =>
           volume_setter_worker fuel' device_info volume stop_event interval
             (worker_iteration device_info volume stop_event interval w)
       end.

End Script.

Arguments Net : clear implicits.
Arguments world {World} _.
Arguments calls {World} _.
Arguments w_net {World} _.
Arguments w_now {World} _.
Arguments w_status {World} _.
Arguments w_trace {World} _.
Arguments result {World} _.
Arguments found_locations {World} _.
Arguments sock_state {World} _.
Arguments net_after {World} _.
Arguments Finished {World} _.
Arguments Running {World} _.

(* ===================================================================== *)
(** ** Definitions used to state the properties *)
(* ===================================================================== *)

(** In the words of the specification: a header line carries a LOCATION
    field when it is a name, a colon and a raw value, the name being
    [location] in any mix of cases; the value of the field is the raw
    value, trimmed. *)
Definition spec_location_field (line value : string) : Prop :=
  ∃ name raw : string,
    line = name +:+ ":" +:+ raw
    ∧ Py.lower name = "location"
    ∧ value = Py.strip raw.

(** What the listen loop adds for one line, if it adds anything. *)
Definition line_location (line : string) : option string :=
  if Py.startswith (Py.lower line) "location:"
  then match Py.split_once ":"%char line with
       | Some (_, value) => Some (Py.strip value)
       | None => None
       end
  else None.

(** The values that the listen loop adds for one response. *)
Definition reply_locations (response : string) : list string :=
  omap line_location (Py.splitlines response).

(** The responses received in one pass over the sockets, in order. *)
Definition replies_of_pass (recv : nat → RecvOutcome) (sockets : list nat)
  : list string :=
  omap (λ sock, match recv sock with
                | RecvData response => Some response
                | _ => None
                end) sockets.

(** The responses received in [passes] passes, starting at pass [pass]. *)
Fixpoint replies (env : Env) (passes pass : nat) (sockets : list nat)
  : list string :=
  match passes with
  | O => []
  | S passes' =>
      replies_of_pass (env_recv env pass) sockets
      ++ replies env passes' (S pass) sockets
  end.

(** The character [c] occurs in [s]. *)
Fixpoint has_char (c : ascii) (s : string) : bool :=
  match s with
  | EmptyString => false
  | String a s' => Ascii.eqb a c || has_char c s'
  end.

(** What the worker does in one pass of its loop. *)
Definition worker_block (success : bool) (since until : N) : list WorkerStep :=
  [CallSetVolume success; AcquireLock; WriteStatus success; ReleaseLock;
   WaitStop since until].

(* ===================================================================== *)
(** ** The device table and the dialogue of [main] *)
(* ===================================================================== *)

(** [sep.join(l)] *)
Fixpoint join (sep : string) (l : list string) : string :=
  match l with
  | [] => EmptyString
  | [x] => x
  | x :: l' => x +:+ sep +:+ join sep l'
  end.

(** The two labels of the column of capabilities.  They are kept as the
    bytes of the source file; nothing looks inside them. *)
Definition play_media_label : string := "▶️ Play Media".
Definition volume_control_label : string := "🔊 Volume Control".

(** The list [capabilities] built for one row. *)
Definition capabilities (info : DeviceInfo) : list string :=
  (if bool_decide (is_Some (services info !! AVTransport))
   then [play_media_label] else [])
  ++ (if bool_decide (is_Some (services info !! RenderingControl))
      then [volume_control_label] else []).

(** One row of the table: number, name, capabilities, location. *)
Record Row := {
  row_number : string;
  row_name : string;
  row_capabilities : string;
  row_location : string
}.

(** What [print_discovered_devices] prints: the panel that says that no
    device was found, or the table. *)
Inductive Printed :=
| NoDevicesPanel
| DevicesTable (rows : list Row).

(** The rows that [add_row] puts in the table. *)
Definition table_rows (devices : list (string * DeviceInfo)) : list Row :=
  imap (λ idx item,
          {| row_number := pretty (idx + 1);
             row_name := item.1;
             row_capabilities := join ", " (capabilities item.2);
             row_location := location item.2 |}) devices.

(** The cells of a row that carry a text taken from the network: the
    name and the location.  Each cell is rendered as markup of its own
    when the table is printed. *)
Definition row_renders (renders : string → bool) (row : Row) : bool :=
  renders (row_name row) && renders (row_location row).

(** [devices] is [devices.items()], in the order of the dict.  Printing
    the table raises [MarkupError] when a cell does not render. *)
Definition print_discovered_devices (renders : string → bool)
    (devices : list (string * DeviceInfo)) : Printing Printed :=
  match devices with
  | [] => Returns NoDevicesPanel
  | _ =>
      if forallb (row_renders renders) (table_rows devices)
      then Returns (DevicesTable (table_rows devices))
      else MarkupError
  end.

(** The sample video of [main]. *)
Definition SAMPLE_VIDEO : string :=
  "http://commondatastorage.googleapis.com/gtv-videos-bucket/sample/BigBuckBunny.mp4".

(** Where the dialogue of [main] ends. *)
Inductive MainEnd :=
| NoDevices          (* [devices] is empty *)
| NoChoice           (* the choice is blank *)
| InvalidInput       (* [int] raises [ValueError] *)
| InvalidSelection   (* the number is not one of the table *)
| InputClosed        (* [console.input] raises [EOFError] *)
| VolumeOutOfRange   (* the level is not in 0..100 *)
| NoVolumeControl    (* the device has no RenderingControl endpoint *)
| MarkupRaised       (* a [console.print] raises [MarkupError] *)
| LockStarted (device_info : DeviceInfo) (volume : Z).
                     (* the worker thread is started with these *)

Section Main.

Variable World : Type.
Variable requests_post :
  World → Request → (RequestException + Response) * World.

(** [int(s)]: [None] when it raises [ValueError]. *)
Variable int_ : string → option Z.

(** [console.print] on a text that carries a friendly name. *)
Variable renders : string → bool.

(** The message of [main] that carries the friendly name. *)
Definition selected_text (name : string) : string :=
  Py.nl +:+ "> You selected: [bold cyan]" +:+ name +:+ "[/]".

(** What the question about the sample video leads to. *)
Inductive Played :=
| PlayClosed                                  (* no answer: [EOFError] *)
| PlayRaised (net : Net World)                (* [MarkupError] *)
| PlayDone (inputs : list string) (net : Net World).

(** [0 <= selection < len(devices_list)] *)
Definition valid_selection (selection : Z) (n : nat) : bool :=
  ((0 <=? selection) && (selection <? Z.of_nat n))%Z.

(** [0 <= volume <= 100] *)
Definition valid_volume (volume : Z) : bool :=
  ((0 <=? volume) && (volume <=? 100))%Z.

(** The question about the sample video.  The result of
    [set_media_and_play] is not looked at. *)
Definition play_sample (selected_device : DeviceInfo)
    (inputs : list string) (net : Net World) : Played :=
  match services selected_device !! AVTransport with
  | None => PlayDone inputs net
  | Some _ =>
      match inputs with
      | [] => PlayClosed
      | play_q :: inputs' =>
          if String.eqb (Py.lower play_q) "y"
          then match set_media_and_play World requests_post renders
                       selected_device SAMPLE_VIDEO net with
               | (Returns _, net1) => PlayDone inputs' net1
               | (MarkupError, net1) => PlayRaised net1
               end
          else PlayDone inputs' net
      end
  end.

(** The second half of the dialogue, once a device is selected: the
    question about the sample video, then the volume to lock.  [inputs]
    are the lines that [console.input] still has to return. *)
Definition control_selected (selected_device : DeviceInfo)
    (inputs : list string) (net : Net World) : MainEnd * Net World :=
  match play_sample selected_device inputs net with
  | PlayClosed => (InputClosed, net)
  | PlayRaised net1 => (MarkupRaised, net1)
  | PlayDone inputs1 net1 =>
      match services selected_device !! RenderingControl with
      | None => (NoVolumeControl, net1)
      | Some _ =>
          match inputs1 with
          | [] => (InputClosed, net1)
          | volume_str :: _ =>
              match int_ volume_str with
              | None => (InvalidInput, net1)
              | Some volume =>
                  if valid_volume volume
                  then (LockStarted selected_device volume, net1)
                  else (VolumeOutOfRange, net1)
              end
          end
      end
  end.

(** The body of [main] from the prompt for the choice to the start of
    the worker thread, the table being printed.  [devices] is
    [devices.items()], in the order of the dict.  The interrupts of the
    keyboard, the messages without a name and the [time.sleep(2)] after
    the sample video are left out. *)
Definition main_dialogue (devices : list (string * DeviceInfo))
    (inputs : list string) (net : Net World) : MainEnd * Net World :=
  let devices_list := devices.*2 in
  match devices with
  | [] => (NoDevices, net)
  | _ =>
      match inputs with
      | [] => (InputClosed, net)
      | choice :: inputs' =>
          match Py.strip choice with
          | EmptyString => (NoChoice, net)
          | _ =>
              match int_ choice with
              | None => (InvalidInput, net)
              | Some number =>
                  let selection := (number - 1)%Z in
                  if valid_selection selection (length devices_list)
                  then match devices_list !! Z.to_nat selection with
                       | Some selected_device =>
                           if renders
                                (selected_text (friendly_name selected_device))
                           then control_selected selected_device inputs' net
                           else (MarkupRaised, net)
                       | None => (InvalidInput, net)
                       end
                  else (InvalidSelection, net)
              end
          end
      end
  end.

End Main.

Arguments PlayClosed {World}.
Arguments PlayRaised {World} net.
Arguments PlayDone {World} inputs net.

(** The worker of a run, whether it has left the loop or not. *)
Definition run_worker {World : Type} (r : Run World) : Worker World :=
  match r with
  | Finished w => w
  | Running w => w
  end.

(** A pass of the worker: the result of the call, the instant at which
    the wait starts and the instant at which it ends. *)
Definition pass_steps (pass : bool * N * N) : list WorkerStep :=
  worker_block pass.1.1 pass.1.2 pass.2.

(** The entries of a [services] dict are filed under the name that their
    type contains: AVTransport, or RenderingControl when the type does
    not contain AVTransport. *)
Definition well_tagged (svcs : gmap string Service) : Prop :=
  ∀ k e, svcs !! k = Some e →
    (k = AVTransport ∧ Py.contains AVTransport (service_type e) = true)
    ∨ (k = RenderingControl
       ∧ Py.contains RenderingControl (service_type e) = true
       ∧ Py.contains AVTransport (service_type e) = false).

Definition first_char (s : string) : option ascii :=
  match s with
  | EmptyString => None
  | String c _ => Some c
  end.

Fixpoint last_char (s : string) : option ascii :=
  match s with
  | EmptyString => None
  | String c EmptyString => Some c
  | String _ s' => last_char s'
  end.

(** A string that neither starts nor ends with white space. *)
Definition trimmed (s : string) : Prop :=
  (∀ c, first_char s = Some c → Py.is_space c = false)
  ∧ (∀ c, last_char s = Some c → Py.is_space c = false).

(** The network after the GET of one location by the resolver. *)
Definition fetched {World : Type}
    (requests_get : World → string → Z → (RequestException + Response) * World)
    (loc : string) (net : Net World) : Net World :=
  {| world := (requests_get (world net) loc 3%Z).2;
     calls := calls net ++ [Get loc 3] |}.



(** [n] calls of [set_volume] in a row: their results, and the network
    after the last one. *)
Fixpoint volume_attempts {World : Type}
    (requests_post : World → Request → (RequestException + Response) * World)
    (n : nat) (device_info : DeviceInfo) (volume : Z) (net : Net World)
  : list bool * Net World :=
  match n with
  | O => ([], net)
  | S n' =>
      let '(success, net1) :=
        set_volume World requests_post device_info volume net in
      let '(results, net') :=
        volume_attempts requests_post n' device_info volume net1 in
      (success :: results, net')
  end.

(** The steps of the passes of results [results], waiting from and until
    the instants [times]. *)
Definition passes_steps (results : list bool) (times : list (N * N))
  : list WorkerStep :=
  zip results times ≫= λ p, worker_block p.1 p.2.1 p.2.2.

(** A pass of the resolver's loop reaches the handler that logs, which
    is where [build_device_info] fails. *)
Definition reaches_log {World : Type}
    (requests_get : World → string → Z → (RequestException + Response) * World)
    (fromstring : string → option Element)
    (urljoin : string → string → option string)
    (loc : string) (net : Net World) : bool :=
  match requests_get (world net) loc 3%Z with
  | (inr r, _) =>
      match raise_for_status r with
      | None =>
          match build_device_info fromstring urljoin loc r with
          | Failed => true
          | _ => false
          end
      | Some _ => false
      end
  | (inl _, _) => false
  end.

(** No pass of the loop over [locations] reaches that handler. *)
Fixpoint never_logs {World : Type}
    (requests_get : World → string → Z → (RequestException + Response) * World)
    (fromstring : string → option Element)
    (urljoin : string → string → option string)
    (found : gmap string DeviceInfo) (locations : list string)
    (net : Net World) : bool :=
  match locations with
  | [] => true
  | loc :: rest =>
      negb (reaches_log requests_get fromstring urljoin loc net)
      && never_logs requests_get fromstring urljoin
           (process_location World requests_get fromstring urljoin
              found loc net).1
           rest
           (process_location World requests_get fromstring urljoin
              found loc net).2
  end.

(* ===================================================================== *)
(** ** A scripted network, for running the script on concrete inputs *)
(* ===================================================================== *)

Module Scripted.

(** The world is the list of the answers still to come; a request made
    when the list is empty fails to connect. *)
Definition World : Type := list (RequestException + Response).

Definition answer (w : World) : (RequestException + Response) * World :=
  match w with
  | [] => (inl ConnectionError, [])
  | a :: w' => (a, w')
  end.

Definition requests_post (w : World) (_ : Request) := answer w.
Definition requests_get (w : World) (_ : string) (_ : Z) := answer w.

Definition start (w : World) : Net World := {| world := w; calls := [] |}.

Definition status (code : Z) : RequestException + Response :=
  inr {| status_code := code; url := "http://10.0.0.5:1400/x"; content := "x" |}.

(** The device of the specification's example. *)
Definition av_endpoint : Service :=
  {| service_type := "urn:schemas-upnp-org:service:AVTransport:1";
     control_url := "http://10.0.0.5:1400/AVTransport/Control" |}.

Definition rc_endpoint : Service :=
  {| service_type := "urn:schemas-upnp-org:service:RenderingControl:1";
     control_url := "http://10.0.0.5:1400/RenderingControl/Control" |}.

Definition renderer : DeviceInfo :=
  {| location := "http://10.0.0.5:1400/desc.xml";
     friendly_name := "Living Room";
     services := <[AVTransport := av_endpoint]>
                 (<[RenderingControl := rc_endpoint]> ∅) |}.


Definition video : string := "http://example.com/video.mp4".

(** The console of the examples.  The texts of the script open no tag
    named [x]: a text with the closing tag [[/x]] in it raises
    [MarkupError]; the other texts of the examples are well formed. *)
Definition renders (text : string) : bool :=
  negb (Py.contains "[/x]" text).

(** A renderer and a device without service, both named [TV [/x]]. *)
Definition tv : DeviceInfo :=
  {| location := "http://10.0.0.7/desc.xml";
     friendly_name := "TV [/x]";
     services := <[AVTransport := av_endpoint]> ∅ |}.


(** The control URLs of the documents below are absolute: [urljoin] gives
    an absolute URL back as it is. *)
Definition urljoin (base_url control_url : string) : option string :=
  Some control_url.

Definition leaf (name value : string) : Element :=
  Elem (root_ name) (Some value) [].

Definition node (name : string) (children : list Element) : Element :=
  Elem (root_ name) None children.

Definition service_entry (service_type control_url : string) : Element :=
  node "service"
    [leaf "serviceType" service_type; leaf "controlURL" control_url].

Definition av_entry : Element :=
  service_entry "urn:schemas-upnp-org:service:AVTransport:1"
    "http://10.0.0.5:1400/AVTransport/Control".

Definition rc_entry : Element :=
  service_entry "urn:schemas-upnp-org:service:RenderingControl:1"
    "http://10.0.0.5:1400/RenderingControl/Control".

(** A service type that contains both names. *)
Definition both_entry : Element :=
  service_entry "urn:example-com:service:AVTransportRenderingControl:1"
    "http://10.0.0.5:1400/Both/Control".

(** A renderer whose [friendlyName] is a blank and a line feed. *)
Definition blank_name : string := " " +:+ Py.nl.

Definition blank_doc : Element :=
  node "root"
    [node "device"
       [leaf "friendlyName" blank_name;
        node "serviceList" [rc_entry]]].

(** A renderer with a second [serviceList] and a second [device]. *)
Definition renderer_doc (extra : list Element) : Element :=
  node "root"
    [node "device"
       [leaf "friendlyName" "Living Room";
        node "serviceList" [rc_entry];
        node "serviceList" extra];
     node "device"
       [leaf "friendlyName" "Other";
        node "serviceList" extra]].

(** A root device that has no [serviceList] of its own: its services are
    those of the device embedded in it. *)
Definition nested_doc (embedded : list Element) : Element :=
  node "root"
    [node "device"
       [leaf "friendlyName" "Gateway";
        node "deviceList"
          [node "device"
             [leaf "friendlyName" "Renderer";
              node "serviceList" embedded]]]].

(** A device with a name and no service the script knows. *)
Definition printer_doc : Element :=
  node "root"
    [node "device"
       [leaf "friendlyName" "Printer";
        node "serviceList"
          [service_entry "urn:schemas-upnp-org:service:PrintBasic:1"
             "http://10.0.0.9/print"]]].

(** The parser on the bodies of the examples: a body is the name of one
    of the documents above. *)
Definition fromstring (body : string) : option Element :=
  if String.eqb body "blank" then Some blank_doc
  else if String.eqb body "renderer" then Some (renderer_doc [])
  else if String.eqb body "renderer+" then Some (renderer_doc [av_entry])
  else if String.eqb body "nested" then Some (nested_doc [av_entry])
  else if String.eqb body "nested-" then Some (nested_doc [])
  else if String.eqb body "printer" then Some printer_doc
  else None.

Definition page (location body : string) : RequestException + Response :=
  inr {| status_code := 200; url := location; content := body |}.

(** Two answers of one device to the probe, on two interfaces: the header
    in two spellings, the value with and without blanks around it. *)
Definition reply_upper : string :=
  "HTTP/1.1 200 OK" +:+ Py.crlf
  +:+ "LOCATION: http://10.0.0.5:1400/desc.xml" +:+ Py.crlf
  +:+ "ST: upnp:rootdevice" +:+ Py.crlf +:+ Py.crlf.

Definition reply_mixed : string :=
  "HTTP/1.1 200 OK" +:+ Py.crlf
  +:+ "Location:    http://10.0.0.5:1400/desc.xml  " +:+ Py.crlf
  +:+ "ST: urn:schemas-upnp-org:device:MediaRenderer:1" +:+ Py.crlf
  +:+ Py.crlf.

(** The location of the examples, and the records they give. *)
Definition here : string := "http://10.0.0.5:1400/desc.xml".

Definition both_endpoint : Service :=
  {| service_type := "urn:example-com:service:AVTransportRenderingControl:1";
     control_url := "http://10.0.0.5:1400/Both/Control" |}.

Definition living_room : DeviceInfo :=
  {| location := here; friendly_name := "Living Room";
     services := <[RenderingControl := rc_endpoint]> ∅ |}.

Definition unnamed : DeviceInfo :=
  {| location := here; friendly_name := EmptyString;
     services := <[RenderingControl := rc_endpoint]> ∅ |}.

Definition lan_net : Net World := start [page here "renderer"].

Definition no_sockets : SockState := {| next_fd := 0; open_fds := [] |}.

(** A machine with a loopback interface without IPv4 address and two
    interfaces that bind.  Two passes of the listen loop: the device
    answers on both sockets, then one receive fails and one times out. *)
Definition lan : Env :=
  {| env_interfaces := Some ["lo"; "eth0"; "wlan0"];
     env_iface := λ iface, if String.eqb iface "lo" then NoIPv4 else Bound;
     env_passes := 2;
     env_recv := λ pass sock,
       match pass, sock with
       | 0, 0 => RecvData reply_upper
       | 0, 1 => RecvData reply_mixed
       | 1, 0 => RecvError
       | _, _ => RecvTimeout
       end |}.

(** One interface that binds, and an interrupt in the first receive. *)
Definition interrupted : Env :=
  {| env_interfaces := Some ["eth0"];
     env_iface := λ _, Bound;
     env_passes := 50;
     env_recv := λ _ _, RecvInterrupt |}.

(** One interface on which [bind] fails. *)
Definition unbindable : Env :=
  {| env_interfaces := Some ["eth0"];
     env_iface := λ _, BindError;
     env_passes := 50;
     env_recv := λ _ _, RecvTimeout |}.

(** Every call of [set_volume] takes 20 ticks. *)
Definition set_volume_time (_ : World) : N := 20.

(** A worker that starts at instant 0 with the optimistic status, against
    a device that answers 200, then 500, then 200 and so on. *)
Definition alternating : World :=
  [status 200; status 500; status 200; status 500; status 200].

Definition worker0 : Worker World :=
  {| w_net := start alternating; w_now := 0; w_status := true; w_trace := [] |}.

(** The stop event is set at instant 2300, in the second wait. *)
Definition stop_2300 : StopEvent := {| set_at := Some 2300%N |}.


(** A renderer whose name has blanks around it. *)
Definition padded_doc : Element :=
  node "root"
    [node "device"
       [leaf "friendlyName" ("  Kitchen " +:+ Py.nl);
        node "serviceList" [rc_entry]]].

(** A document without any device. *)
Definition empty_doc : Element := node "root" [].

(** The parser of the examples, with these two documents as well. *)
Definition fromstring_more (body : string) : option Element :=
  if String.eqb body "padded" then Some padded_doc
  else if String.eqb body "empty" then Some empty_doc
  else fromstring body.

Definition there : string := "http://10.0.0.6:1400/desc.xml".

Definition kitchen : DeviceInfo :=
  {| location := there; friendly_name := "Kitchen";
     services := <[RenderingControl := rc_endpoint]> ∅ |}.

(** The record of the second renderer that calls itself Living Room. *)
Definition living_room_there : DeviceInfo :=
  {| location := there; friendly_name := "Living Room";
     services := <[RenderingControl := rc_endpoint]> ∅ |}.

(** A second AVTransport service of one document. *)
Definition av2_entry : Element :=
  service_entry "urn:schemas-upnp-org:service:AVTransport:2"
    "http://10.0.0.5:1400/AVTransport2/Control".

Definition av2_endpoint : Service :=
  {| service_type := "urn:schemas-upnp-org:service:AVTransport:2";
     control_url := "http://10.0.0.5:1400/AVTransport2/Control" |}.

(** Sockets of the process that were open before the discovery. *)
Definition busy_sockets : SockState := {| next_fd := 3; open_fds := [1] |}.

(** [int] on the strings of the examples: decimal digits, with an
    optional minus sign, and blanks around them. *)
Fixpoint digits (acc : Z) (s : string) : option Z :=
  match s with
  | EmptyString => Some acc
  | String c s' =>
      match Ascii.is_nat c with
      | Some d => digits (10 * acc + Z.of_nat d) s'
      | None => None
      end
  end.

Definition int_ (s : string) : option Z :=
  match Py.strip s with
  | EmptyString => None
  | String "-" EmptyString => None
  | String "-" t => Z.opp <$> digits 0 t
  | t => digits 0 t
  end.

(** A table of two devices. *)
Definition two_devices : list (string * DeviceInfo) :=
  [("Living Room", renderer); ("Kitchen", kitchen)].

(** The script on the scripted network. *)
Abbreviation build := (build_device_info fromstring urljoin).
Abbreviation process :=
  (process_location World requests_get fromstring urljoin).
Abbreviation resolve := (resolve_from World requests_get fromstring urljoin).
Abbreviation discover :=
  (discover_devices World requests_get fromstring urljoin).
Abbreviation worker fuel ev :=
  (volume_setter_worker World requests_post set_volume_time fuel
     renderer 30 ev 1500).
Abbreviation iteration ev :=
  (worker_iteration World requests_post set_volume_time renderer 30 ev 1500).
Abbreviation resolve_more :=
  (resolve_from World requests_get fromstring_more urljoin).
Abbreviation parse :=
  (parse_device_descriptions World requests_get fromstring urljoin).
Abbreviation parse_more :=
  (parse_device_descriptions World requests_get fromstring_more urljoin).
Abbreviation dialogue := (main_dialogue World requests_post int_ renders).
Abbreviation control := (control_selected World requests_post int_ renders).
Abbreviation play := (set_media_and_play World requests_post renders).

End Scripted.

(* ===================================================================== *)
(** ** The control actions *)
(* ===================================================================== *)

Section ControlProofs.

Context {World : Type}.
Variable requests_post :
  World → Request → (RequestException + Response) * World.
Variable renders : string → bool.

Local Abbreviation send := (send_soap_request World requests_post).
Local Abbreviation play := (set_media_and_play World requests_post renders).
Local Abbreviation volume := (set_volume World requests_post).

(** Every call of [send_soap_request] makes exactly one POST. *)
Lemma send_soap_request_calls cu st action args headers (net : Net World) :
  calls (send cu st action args headers net).2
  = calls net ++ [Post (soap_request cu st action args (default ∅ headers))].
Proof.
  unfold send_soap_request.
  destruct (requests_post _ _) as [[e | r] w]; simpl; [done |].
  by destruct (raise_for_status r).
Qed.

(** The status codes for which [raise_for_status] raises. *)
Lemma raise_for_status_None r :
  raise_for_status r = None ↔ ¬ (400 ≤ status_code r < 600)%Z.
Proof.
  unfold raise_for_status.
  destruct (400 <=? status_code r)%Z eqn:H1;
    destruct (status_code r <? 600)%Z eqn:H2; simpl; split; try done; lia.
Qed.

(** The calls of one [set_volume]. *)
Lemma set_volume_calls (device_info : DeviceInfo) (level : Z)
    (net : Net World) :
  calls (volume device_info level net).2
  = calls net ++
    match services device_info !! RenderingControl with
    | Some rc => [Post (soap_request (control_url rc) (service_type rc)
                          "SetVolume" (set_vol_args level) ∅)]
    | None => []
    end.
Proof.
  unfold set_volume.
  destruct (services device_info !! RenderingControl) as [rc |];
    [| by rewrite app_nil_r].
  pose proof (send_soap_request_calls (control_url rc)
                (service_type rc) "SetVolume" (set_vol_args level) None net)
    as Hcalls.
  by destruct (send _ _ _ _ _ _) as [[r |] net1].
Qed.



(** C7, as the code has it.  [send_soap_request] returns [None] when
    [requests.post] raises and when the status of the response is one for
    which [raise_for_status] raises, that is 400..599; a response with any
    other status is returned to the caller. *)
Theorem send_soap_request_failure cu st action args headers (net : Net World) :
  let rq := soap_request cu st action args (default ∅ headers) in
  (∀ e w, requests_post (world net) rq = (inl e, w) →
     (send cu st action args headers net).1 = None)
  ∧
  (∀ r w, requests_post (world net) rq = (inr r, w) →
     (400 ≤ status_code r < 600)%Z →
     (send cu st action args headers net).1 = None)
  ∧
  (∀ r w, requests_post (world net) rq = (inr r, w) →
     ¬ (400 ≤ status_code r < 600)%Z →
     (send cu st action args headers net).1 = Some r).
Proof.
  intros rq. unfold send_soap_request. fold rq.
  split; [| split].
  - intros e w ->. done.
  - intros r w -> Hs.
    destruct (raise_for_status r) eqn:Hr; [done |].
    apply raise_for_status_None in Hr. done.
  - intros r w -> Hs.
    destruct (raise_for_status r) eqn:Hr; [| done].
    apply raise_for_status_None in Hs. congruence.
Qed.

End ControlProofs.

(** The example of the specification: a server that answers 200 twice. *)
Example play_200_200 :
  Scripted.play Scripted.renderer Scripted.video
    (Scripted.start [Scripted.status 200; Scripted.status 200])
  = (Returns true,
     {| world := [];
        calls := [Post (soap_request Scripted.av_endpoint.(control_url)
                          Scripted.av_endpoint.(service_type)
                          "SetAVTransportURI"
                          (set_uri_args Scripted.video) ∅);
                  Post (soap_request Scripted.av_endpoint.(control_url)
                          Scripted.av_endpoint.(service_type)
                          "Play" play_args ∅)] |}).
Proof. vm_compute. reflexivity. Qed.

(** A server that answers 500 to the first call: no second call. *)
Example play_500 :
  Scripted.play Scripted.renderer Scripted.video
    (Scripted.start [Scripted.status 500; Scripted.status 200])
  = (Returns false,
     {| world := [Scripted.status 200];
        calls := [Post (soap_request Scripted.av_endpoint.(control_url)
                          Scripted.av_endpoint.(service_type)
                          "SetAVTransportURI"
                          (set_uri_args Scripted.video) ∅)] |}).
Proof. vm_compute. reflexivity. Qed.





(** C7 fails as stated: a response with status 304 is no 2xx response, and
    [send_soap_request] returns it. *)
Lemma send_soap_request_304_returned :
  let r := {| status_code := 304; url := "http://10.0.0.5:1400/x";
              content := "x" |} in
  is_2xx r = false ∧
  (send_soap_request _ Scripted.requests_post
     "http://10.0.0.5:1400/RenderingControl/Control"
     "urn:schemas-upnp-org:service:RenderingControl:1" "GetMute"
     "<InstanceID>0</InstanceID>" None (Scripted.start [inr r])).1
  = Some r.
Proof. split; reflexivity. Qed.

Lemma send_soap_request_failure_witness :
  (send_soap_request _ Scripted.requests_post
     "http://10.0.0.5:1400/RenderingControl/Control"
     "urn:schemas-upnp-org:service:RenderingControl:1" "SetVolume"
     (set_vol_args 30) None (Scripted.start [])).1 = None
  ∧
  (send_soap_request _ Scripted.requests_post
     "http://10.0.0.5:1400/RenderingControl/Control"
     "urn:schemas-upnp-org:service:RenderingControl:1" "SetVolume"
     (set_vol_args 30) None (Scripted.start [Scripted.status 503])).1 = None
  ∧
  is_Some (send_soap_request _ Scripted.requests_post
     "http://10.0.0.5:1400/RenderingControl/Control"
     "urn:schemas-upnp-org:service:RenderingControl:1" "SetVolume"
     (set_vol_args 30) None (Scripted.start [Scripted.status 204])).1.
Proof.
  split; [| split].
  - apply (send_soap_request_failure Scripted.requests_post
             "http://10.0.0.5:1400/RenderingControl/Control"
             "urn:schemas-upnp-org:service:RenderingControl:1" "SetVolume"
             (set_vol_args 30) None (Scripted.start []))
      with (e := ConnectionError) (w := []).
    reflexivity.
  - apply (send_soap_request_failure Scripted.requests_post
             "http://10.0.0.5:1400/RenderingControl/Control"
             "urn:schemas-upnp-org:service:RenderingControl:1" "SetVolume"
             (set_vol_args 30) None (Scripted.start [Scripted.status 503]))
      with (r := {| status_code := 503; url := "http://10.0.0.5:1400/x";
                    content := "x" |}) (w := []).
    + reflexivity.
    + simpl. lia.
  - eexists.
    apply (send_soap_request_failure Scripted.requests_post
             "http://10.0.0.5:1400/RenderingControl/Control"
             "urn:schemas-upnp-org:service:RenderingControl:1" "SetVolume"
             (set_vol_args 30) None (Scripted.start [Scripted.status 204]))
      with (w := []).
    + reflexivity.
    + simpl. lia.
Defined.

(* ===================================================================== *)
(** ** Strings *)
(* ===================================================================== *)

Lemma prefix_app (s t : string) : String.prefix s (s +:+ t) = true.
Proof.
  induction s as [| c s IH]; simpl; [by destruct t |].
  destruct (ascii_dec c c); [done | congruence].
Qed.

Lemma contains_prefix (sub s : string) :
  String.prefix sub s = true → Py.contains sub s = true.
Proof. intros H. destruct s; cbn [Py.contains]; rewrite H; done. Qed.

(** [sub in s] holds of every string that has [sub] somewhere inside. *)
Lemma contains_infix (sub pre suf : string) :
  Py.contains sub (pre +:+ sub +:+ suf) = true.
Proof.
  induction pre as [| c pre IH].
  - change (EmptyString +:+ sub +:+ suf) with (sub +:+ suf).
    apply contains_prefix, prefix_app.
  - change (String c pre +:+ sub +:+ suf) with (String c (pre +:+ sub +:+ suf)).
    cbn [Py.contains]. rewrite IH. apply orb_true_r.
Qed.

Lemma lstrip_all_space (s : string) :
  Py.all_space s = true → Py.lstrip s = EmptyString.
Proof.
  induction s as [| c s IH]; simpl; [done |].
  intros [Hc Hs]%andb_true_iff. rewrite Hc. auto.
Qed.

(** Stripping a string of white space leaves the empty string. *)
Lemma strip_all_space (s : string) :
  Py.all_space s = true → Py.strip s = EmptyString.
Proof. intros H. unfold Py.strip. by rewrite lstrip_all_space. Qed.

(* ===================================================================== *)
(** ** The description resolver *)
(* ===================================================================== *)

(** [find] on a list in which the first element with the tag is known. *)
Lemma head_filter_first (t : string) (pre post : list Element) (x : Element) :
  Forall (λ e, has_tag t e = false) pre →
  has_tag t x = true →
  head (filter (λ e, has_tag t e = true) (pre ++ x :: post)) = Some x.
Proof.
  intros Hpre Hx. induction Hpre as [| e pre He _ IH]; simpl.
  - rewrite filter_cons_True; done.
  - rewrite filter_cons_False; [done |]. by rewrite He.
Qed.

Section ResolverProofs.

Context {World : Type}.
Variable requests_get :
  World → string → Z → (RequestException + Response) * World.
Variable fromstring : string → option Element.
Variable urljoin : string → string → option string.

Local Abbreviation add := (add_service urljoin).
Local Abbreviation build := (build_device_info fromstring urljoin).
Local Abbreviation process :=
  (process_location World requests_get fromstring urljoin).
Local Abbreviation resolve :=
  (resolve_from World requests_get fromstring urljoin).
Local Abbreviation parse :=
  (parse_device_descriptions World requests_get fromstring urljoin).

(** C2, as the code has it.  A service entry whose [serviceType] and
    [controlURL] are both present, and whose control URL resolves, is
    recorded under AVTransport when its type has [AVTransport] anywhere
    inside, and under RenderingControl when its type has
    [RenderingControl] anywhere inside and does not contain
    [AVTransport]; what comes before and after the name in the type does
    not matter. *)
Theorem add_service_classifies (base_url : string)
    (svcs : gmap string Service) (service type_node url_node : Element)
    (type_text url_text resolved pre suf : string) :
  find "serviceType" service = Some type_node →
  find "controlURL" service = Some url_node →
  text type_node = Some type_text →
  text url_node = Some url_text →
  urljoin base_url url_text = Some resolved →
  let entry := {| service_type := type_text; control_url := resolved |} in
  (type_text = pre +:+ AVTransport +:+ suf →
   add base_url svcs service = Some (<[AVTransport := entry]> svcs))
  ∧
  (type_text = pre +:+ RenderingControl +:+ suf →
   Py.contains AVTransport type_text = false →
   add base_url svcs service = Some (<[RenderingControl := entry]> svcs)).
Proof.
  intros Ht Hu Htt Hut Hj entry. unfold add_service.
  rewrite Ht, Hu, Htt, Hut, Hj. split.
  - intros ->. by rewrite contains_infix.
  - intros -> ->. by rewrite contains_infix.
Qed.

(** Every record that [process_location] stores has a capability. *)
Lemma process_location_capable found loc (net : Net World) :
  map_Forall (λ _ d, has_capability d = true) found →
  map_Forall (λ _ d, has_capability d = true) (process found loc net).1.
Proof.
  intros Hall. unfold process_location.
  destruct (requests_get _ _ _) as [[e | r] w]; simpl; [done |].
  destruct (raise_for_status r); simpl; [done |].
  destruct (build loc r) as [| | d]; simpl; try done.
  destruct (has_capability d) eqn:Hd; simpl; [| done].
  by apply map_Forall_insert_2.
Qed.

Lemma resolve_from_capable locations found (net : Net World) :
  map_Forall (λ _ d, has_capability d = true) found →
  map_Forall (λ _ d, has_capability d = true) (resolve found locations net).1.
Proof.
  revert found net. induction locations as [| loc rest IH]; intros found net H.
  - done.
  - simpl. pose proof (process_location_capable found loc net H) as Hp.
    destruct (process found loc net) as [found' net']. by apply IH.
Qed.

(** C5. Every record of the mapping that [parse_device_descriptions]
    returns has an AVTransport or a RenderingControl endpoint; and a
    location whose document is fetched and parsed into a record with
    neither leaves the mapping as it was. *)
Theorem parse_device_descriptions_capable (locations : list string)
    (net : Net World) :
  (∀ name d, (parse locations net).1 !! name = Some d →
     is_Some (services d !! AVTransport)
     ∨ is_Some (services d !! RenderingControl))
  ∧
  (∀ found loc net0 r w d,
     requests_get (world net0) loc 3 = (inr r, w) →
     raise_for_status r = None →
     build loc r = Built d →
     services d !! AVTransport = None →
     services d !! RenderingControl = None →
     (process found loc net0).1 = found).
Proof.
  split.
  - intros name d Hd.
    pose proof (resolve_from_capable locations ∅ net (map_Forall_empty _)) as H.
    specialize (H name d Hd). unfold has_capability in H.
    apply orb_true_iff in H as [H | H]; apply bool_decide_eq_true in H; auto.
  - intros found loc net0 r w d Hget Hst Hb Ha Hr. unfold process_location.
    rewrite Hget, Hst, Hb. unfold has_capability. rewrite Ha, Hr.
    rewrite !bool_decide_eq_false_2; [done | by intros [? ?] ..].
Qed.

(** A key of the mapping stays a key. *)
Lemma process_location_keeps found loc (net : Net World) k :
  is_Some (found !! k) → is_Some ((process found loc net).1 !! k).
Proof.
  intros Hk. unfold process_location.
  destruct (requests_get _ _ _) as [[e | r] w]; simpl; [done |].
  destruct (raise_for_status r); simpl; [done |].
  destruct (build loc r) as [| | d]; simpl; try done.
  destruct (has_capability d); simpl; [| done].
  rewrite lookup_insert. case_decide; [by eexists | done].
Qed.

Lemma resolve_from_keeps locations found (net : Net World) k :
  is_Some (found !! k) → is_Some ((resolve found locations net).1 !! k).
Proof.
  revert found net. induction locations as [| loc rest IH]; intros found net H.
  - done.
  - simpl. pose proof (process_location_keeps found loc net k H) as Hp.
    destruct (process found loc net) as [found' net']. by apply IH.
Qed.

(** C9. When the [friendlyName] of the first device is present and its
    text is white space only, and the walk over the services gives at
    least one capability, the location is stored under the empty string,
    and the empty string is a key of the mapping that is returned. *)
Theorem blank_friendly_name_kept (found : gmap string DeviceInfo)
    (loc : string) (rest : list string) (net : Net World)
    (r : Response) (w : World) (xml_root device_node name_node : Element)
    (name_text : string) (svcs : gmap string Service) :
  requests_get (world net) loc 3 = (inr r, w) →
  raise_for_status r = None →
  fromstring (content r) = Some xml_root →
  find_descendant "device" xml_root = Some device_node →
  find "friendlyName" device_node = Some name_node →
  text name_node = Some name_text →
  Py.all_space name_text = true →
  match find_descendant "serviceList" device_node with
  | None => Some ∅
  | Some service_list =>
      add_services urljoin (url r) ∅ (findall "service" service_list)
  end = Some svcs →
  is_Some (svcs !! AVTransport) ∨ is_Some (svcs !! RenderingControl) →
  (process found loc net).1 !! EmptyString
  = Some {| location := loc; friendly_name := EmptyString; services := svcs |}
  ∧ is_Some ((resolve found (loc :: rest) net).1 !! EmptyString).
Proof.
  intros Hget Hst Hfs Hdev Hname Htext Hblank Hwalk Hcap.
  assert (Hb : build loc r = Built {| location := loc;
            friendly_name := EmptyString; services := svcs |}).
  { unfold build_device_info.
    rewrite Hfs, Hdev, Hname, Htext, Hwalk. by rewrite strip_all_space. }
  assert (Hp : (process found loc net).1 !! EmptyString
    = Some {| location := loc; friendly_name := EmptyString;
              services := svcs |}).
  { unfold process_location. rewrite Hget, Hst, Hb.
    assert (has_capability {| location := loc; friendly_name := EmptyString;
              services := svcs |} = true) as ->.
    { unfold has_capability. simpl. apply orb_true_iff.
      destruct Hcap; [left | right]; by apply bool_decide_eq_true. }
    simpl. apply lookup_insert_eq. }
  split; [done |].
  simpl. destruct (process found loc net) as [found' net'] eqn:Hpr.
  apply resolve_from_keeps. simpl in Hp. by rewrite Hp.
Qed.

(** C10, as the code has it.  Two documents give the same record when
    the first [device] element in document order has, in both, the same
    [friendlyName] text and the same first [serviceList] element in
    document order among all the elements below it, at any depth;
    whatever comes after that [serviceList] in the device, and after the
    device in the document, contributes nothing. *)
Theorem build_device_info_first_only (loc : string) (r1 r2 : Response)
    (root1 root2 dev1 dev2 service_list : Element)
    (pre1 post1 pre2 post2 before1 after1 before2 after2 : list Element) :
  url r1 = url r2 →
  fromstring (content r1) = Some root1 →
  fromstring (content r2) = Some root2 →
  descendants root1 = pre1 ++ dev1 :: post1 →
  descendants root2 = pre2 ++ dev2 :: post2 →
  Forall (λ e, has_tag (root_ "device") e = false) (pre1 ++ pre2) →
  has_tag (root_ "device") dev1 = true →
  has_tag (root_ "device") dev2 = true →
  find "friendlyName" dev1 ≫= text = find "friendlyName" dev2 ≫= text →
  descendants dev1 = before1 ++ service_list :: after1 →
  descendants dev2 = before2 ++ service_list :: after2 →
  Forall (λ e, has_tag (root_ "serviceList") e = false) (before1 ++ before2) →
  has_tag (root_ "serviceList") service_list = true →
  build loc r1 = build loc r2.
Proof.
  intros Hurl Hf1 Hf2 Hd1 Hd2 [Hp1 Hp2]%Forall_app Ht1 Ht2 Hname
    Hs1 Hs2 [Hb1 Hb2]%Forall_app Hsl.
  unfold build_device_info. rewrite Hf1, Hf2.
  unfold find_descendant. rewrite Hd1, Hd2.
  rewrite !head_filter_first by done.
  rewrite Hs1, Hs2, !head_filter_first by done.
  rewrite Hurl.
  destruct (find "friendlyName" dev1) as [n1 |];
    destruct (find "friendlyName" dev2) as [n2 |]; simpl in Hname.
  - rewrite Hname. done.
  - rewrite Hname. done.
  - rewrite <- Hname. done.
  - done.
Qed.

End ResolverProofs.

(** *** The resolver on concrete documents *)

(** C2 fails as stated: the type of this entry contains
    [RenderingControl], and the entry is recorded under AVTransport and
    not under RenderingControl. *)
Lemma both_names_recorded_once :
  find "serviceType" Scripted.both_entry ≫= text
  = Some (service_type Scripted.both_endpoint)
  ∧ is_Some (find "controlURL" Scripted.both_entry ≫= text)
  ∧ Py.contains RenderingControl
      (service_type Scripted.both_endpoint) = true
  ∧ add_service Scripted.urljoin Scripted.here ∅ Scripted.both_entry
    = Some (<[AVTransport := Scripted.both_endpoint]> ∅)
  ∧ (<[AVTransport := Scripted.both_endpoint]> ∅
       : gmap string Service) !! RenderingControl = None.
Proof. repeat split; vm_compute; eauto. Qed.

Lemma add_service_classifies_witness :
  add_service Scripted.urljoin Scripted.here ∅ Scripted.av_entry
  = Some (<[AVTransport := Scripted.av_endpoint]> ∅)
  ∧
  add_service Scripted.urljoin Scripted.here ∅ Scripted.rc_entry
  = Some (<[RenderingControl := Scripted.rc_endpoint]> ∅).
Proof.
  split.
  - apply (add_service_classifies Scripted.urljoin Scripted.here ∅
             Scripted.av_entry
             (Scripted.leaf "serviceType" (service_type Scripted.av_endpoint))
             (Scripted.leaf "controlURL" (control_url Scripted.av_endpoint))
             (service_type Scripted.av_endpoint)
             (control_url Scripted.av_endpoint)
             (control_url Scripted.av_endpoint)
             "urn:schemas-upnp-org:service:" ":1"); reflexivity.
  - apply (add_service_classifies Scripted.urljoin Scripted.here ∅
             Scripted.rc_entry
             (Scripted.leaf "serviceType" (service_type Scripted.rc_endpoint))
             (Scripted.leaf "controlURL" (control_url Scripted.rc_endpoint))
             (service_type Scripted.rc_endpoint)
             (control_url Scripted.rc_endpoint)
             (control_url Scripted.rc_endpoint)
             "urn:schemas-upnp-org:service:" ":1"); reflexivity.
Defined.

Lemma parse_device_descriptions_capable_witness :
  (is_Some (services Scripted.living_room !! AVTransport)
   ∨ is_Some (services Scripted.living_room !! RenderingControl))
  ∧
  (Scripted.process ∅ "http://10.0.0.9/desc.xml"
     (Scripted.start [Scripted.page "http://10.0.0.9/desc.xml" "printer"])).1
  = ∅.
Proof.
  destruct (parse_device_descriptions_capable Scripted.requests_get
              Scripted.fromstring Scripted.urljoin
              ["http://10.0.0.9/desc.xml"; Scripted.here]
              (Scripted.start
                 [Scripted.page "http://10.0.0.9/desc.xml" "printer";
                  Scripted.page Scripted.here "renderer"]))
    as [H1 H2].
  split.
  - apply (H1 "Living Room"). vm_compute. reflexivity.
  - eapply (H2 ∅ "http://10.0.0.9/desc.xml"
              (Scripted.start
                 [Scripted.page "http://10.0.0.9/desc.xml" "printer"]));
      reflexivity.
Defined.

Lemma blank_friendly_name_kept_witness :
  (Scripted.process ∅ Scripted.here
     (Scripted.start [Scripted.page Scripted.here "blank"])).1
    !! EmptyString
  = Some Scripted.unnamed
  ∧ is_Some ((Scripted.resolve ∅
                [Scripted.here; "http://10.0.0.9/desc.xml"]
                (Scripted.start
                   [Scripted.page Scripted.here "blank"])).1
             !! EmptyString).
Proof.
  apply (blank_friendly_name_kept Scripted.requests_get Scripted.fromstring
           Scripted.urljoin ∅ Scripted.here
           ["http://10.0.0.9/desc.xml"]
           (Scripted.start [Scripted.page Scripted.here "blank"])
           {| status_code := 200; url := Scripted.here;
              content := "blank" |} []
           Scripted.blank_doc
           (Scripted.node "device"
              [Scripted.leaf "friendlyName" Scripted.blank_name;
               Scripted.node "serviceList" [Scripted.rc_entry]])
           (Scripted.leaf "friendlyName" Scripted.blank_name)
           Scripted.blank_name
           (<[RenderingControl := Scripted.rc_endpoint]> ∅));
    try reflexivity.
  right. vm_compute. eauto.
Defined.

(** C10 fails as stated: the first [device] of this document has no
    [serviceList] of its own, and the record takes the service of the
    device embedded in it; without that entry the record has no service. *)
Lemma embedded_device_contributes :
  Scripted.build Scripted.here
    {| status_code := 200; url := Scripted.here; content := "nested" |}
  = Built {| location := Scripted.here; friendly_name := "Gateway";
             services := <[AVTransport := Scripted.av_endpoint]> ∅ |}
  ∧
  Scripted.build Scripted.here
    {| status_code := 200; url := Scripted.here; content := "nested-" |}
  = Built {| location := Scripted.here; friendly_name := "Gateway";
             services := ∅ |}.
Proof. split; vm_compute; reflexivity. Qed.

Lemma build_device_info_first_only_witness :
  Scripted.build Scripted.here
    {| status_code := 200; url := Scripted.here; content := "renderer" |}
  = Scripted.build Scripted.here
    {| status_code := 200; url := Scripted.here;
       content := "renderer+" |}.
Proof.
  pose (first_list := Scripted.node "serviceList" [Scripted.rc_entry]).
  pose (name := Scripted.leaf "friendlyName" "Living Room").
  pose (dev := λ extra,
          Scripted.node "device"
            [name; first_list; Scripted.node "serviceList" extra]).
  pose (other := λ extra,
          Scripted.node "device"
            [Scripted.leaf "friendlyName" "Other";
             Scripted.node "serviceList" extra]).
  apply (build_device_info_first_only Scripted.fromstring Scripted.urljoin
           Scripted.here _ _
           (Scripted.renderer_doc []) (Scripted.renderer_doc [Scripted.av_entry])
           (dev []) (dev [Scripted.av_entry]) first_list
           [] (tail (iter (dev [])) ++ iter (other []))
           [] (tail (iter (dev [Scripted.av_entry]))
                 ++ iter (other [Scripted.av_entry]))
           [name] (tail (iter first_list) ++ iter (Scripted.node "serviceList" []))
           [name] (tail (iter first_list)
                     ++ iter (Scripted.node "serviceList" [Scripted.av_entry])));
    try reflexivity.
  - constructor.
  - repeat constructor.
Defined.

(* ===================================================================== *)
(** ** The LOCATION header *)
(* ===================================================================== *)

Lemma app_cons (c : ascii) (a b : string) :
  String c a +:+ b = String c (a +:+ b).
Proof. reflexivity. Qed.

Lemma lower_app (a b : string) :
  Py.lower (a +:+ b) = Py.lower a +:+ Py.lower b.
Proof.
  induction a as [| c a IH]; [done |].
  rewrite app_cons. simpl. by rewrite IH, app_cons.
Qed.

(** No character other than the colon becomes a colon in [lower]. *)
Lemma lower_char_colon (c : ascii) :
  Py.lower_char c = ":"%char → c = ":"%char.
Proof. destruct c as [[] [] [] [] [] [] [] []]; vm_compute; congruence. Qed.

Lemma has_char_lower (s : string) :
  has_char ":" s = true → has_char ":" (Py.lower s) = true.
Proof.
  induction s as [| c s IH]; simpl; [done |].
  intros [Hc | Hs]%orb_true_iff; apply orb_true_iff.
  - left. apply Ascii.eqb_eq in Hc as ->. done.
  - right. auto.
Qed.

Lemma split_once_app (name raw : string) :
  has_char ":" name = false →
  Py.split_once ":" (name +:+ ":" +:+ raw) = Some (name, raw).
Proof.
  induction name as [| c name IH]; [done |].
  change (String c name +:+ ":" +:+ raw)
    with (String c (name +:+ ":" +:+ raw)).
  simpl. intros [Hc Hn]%orb_false_iff. rewrite Hc, IH; done.
Qed.

(** A line whose lower-case form starts with [q:] is a name that
    lower-cases to [q], a colon and the rest. *)
Lemma prefix_lower_inv (q line : string) :
  String.prefix (q +:+ ":") (Py.lower line) = true →
  ∃ name raw, line = name +:+ ":" +:+ raw ∧ Py.lower name = q.
Proof.
  revert line. induction q as [| a q IH]; intros [| c line].
  - done.
  - change (EmptyString +:+ ":") with ":". cbn [String.prefix Py.lower].
    destruct (ascii_dec _ _) as [Hc |]; [| done]. intros _.
    symmetry in Hc. apply lower_char_colon in Hc as ->.
    by exists EmptyString, line.
  - done.
  - rewrite app_cons. cbn [String.prefix Py.lower].
    destruct (ascii_dec _ _) as [Hc |]; [| done]. intros H.
    destruct (IH line H) as (name & raw & -> & Hn).
    exists (String c name), raw. split; [done |]. simpl. by rewrite Hn, Hc.
Qed.

(** The test and the split of the listen loop find the fields of the
    specification, and nothing else. *)
Lemma line_location_spec (line value : string) :
  line_location line = Some value ↔ spec_location_field line value.
Proof.
  unfold line_location, Py.startswith, spec_location_field. split.
  - destruct (String.prefix _ _) eqn:Hp; [| done].
    apply (prefix_lower_inv "location") in Hp as (name & raw & -> & Hn).
    rewrite split_once_app.
    + intros [= <-]. by exists name, raw.
    + destruct (has_char ":" name) eqn:Hc; [| done].
      apply has_char_lower in Hc. rewrite Hn in Hc. done.
  - intros (name & raw & -> & Hn & ->).
    rewrite lower_app, Hn.
    change ("location" +:+ Py.lower (":" +:+ raw))
      with ("location:" +:+ Py.lower raw).
    rewrite prefix_app, split_once_app; [done |].
    destruct (has_char ":" name) eqn:Hc; [| done].
    apply has_char_lower in Hc. rewrite Hn in Hc. done.
Qed.

(** The loop over the lines never raises, and adds the value of every
    line that [line_location] accepts. *)
Lemma scan_lines_spec (lines : list string) (locations : gset string) :
  scan_lines locations lines
  = (list_to_set (omap line_location lines) ∪ locations, true).
Proof.
  revert locations. induction lines as [| line rest IH]; intros locations.
  - simpl. by rewrite (left_id_L ∅ (∪)).
  - simpl. unfold line_location at 1.
    destruct (Py.startswith _ _) eqn:Hp.
    + unfold Py.startswith in Hp.
      apply (prefix_lower_inv "location") in Hp as (name & raw & -> & Hn).
      rewrite split_once_app.
      * rewrite IH. f_equal. simpl.
        fold (omap line_location rest).
        by rewrite (assoc_L (∪)), (comm_L (∪) (list_to_set _) {[Py.strip raw]}).
      * destruct (has_char ":" name) eqn:Hc; [| done].
        apply has_char_lower in Hc. rewrite Hn in Hc. done.
    + rewrite IH. done.
Qed.

(* ===================================================================== *)
(** ** Discovery *)
(* ===================================================================== *)

Lemma listen_pass_spec recv (sockets : list nat) (locations found : gset string) :
  listen_pass recv sockets locations = Normal found →
  found = list_to_set (replies_of_pass recv sockets ≫= reply_locations)
          ∪ locations.
Proof.
  revert locations. induction sockets as [| sock rest IH]; intros locations.
  - simpl. intros [= <-]. by rewrite (left_id_L ∅ (∪)).
  - simpl. unfold replies_of_pass. simpl. fold (replies_of_pass recv rest).
    destruct (recv sock) as [| | response |]; simpl; try done.
    + apply IH.
    + apply IH.
    + intros H%IH. rewrite H, scan_lines_spec. simpl.
      rewrite list_to_set_app_L. fold (reply_locations response).
      by rewrite (assoc_L (∪)),
        (comm_L (∪) (list_to_set (_ ≫= _)) (list_to_set (reply_locations _))).
Qed.

Lemma listen_spec env (passes pass : nat) (sockets : list nat)
    (locations found : gset string) :
  listen env passes pass sockets locations = Normal found →
  found = list_to_set (replies env passes pass sockets ≫= reply_locations)
          ∪ locations.
Proof.
  revert pass locations.
  induction passes as [| passes IH]; intros pass locations.
  - simpl. intros [= <-]. by rewrite (left_id_L ∅ (∪)).
  - simpl.
    destruct (listen_pass _ _ _) as [middle |] eqn:Hpass; [| done].
    apply listen_pass_spec in Hpass as ->. intros H%IH. rewrite H.
    rewrite bind_app, list_to_set_app_L.
    by rewrite (assoc_L (∪)),
      (comm_L (∪) (list_to_set (replies env _ _ _ ≫= _))).
Qed.

(** Without sockets nothing is received. *)
Lemma replies_nil env (passes pass : nat) : replies env passes pass [] = [].
Proof.
  revert pass. induction passes as [| passes IH]; intros pass; [done |].
  simpl. apply IH.
Qed.

Lemma size_list_to_set_remove_dups (l : list string) :
  size (list_to_set l : gset string) = length (remove_dups l).
Proof.
  rewrite <- (size_list_to_set (C := gset string) (remove_dups l))
    by apply NoDup_remove_dups.
  f_equal. apply set_eq. intros x.
  by rewrite !elem_of_list_to_set, elem_of_remove_dups.
Qed.

(** Closing the sockets of the list leaves none of them open. *)
Lemma close_all_closed (sockets : list nat) (st : SockState) (fd : nat) :
  fd ∈ sockets → fd ∉ open_fds (close_all sockets st).
Proof.
  intros Hin. unfold close_all. simpl.
  rewrite list_elem_of_filter. intros [Hout _]. done.
Qed.

Section DiscoveryProofs.

Context {World : Type}.
Variable requests_get :
  World → string → Z → (RequestException + Response) * World.
Variable fromstring : string → option Element.
Variable urljoin : string → string → option string.

Local Abbreviation discover :=
  (discover_devices World requests_get fromstring urljoin).

(** What a call that returns leaves behind: the set accumulated by the
    listen loop, and the sockets after [close_all]. *)
Lemma discover_devices_returns env st (net : Net World) interfaces devices :
  env_interfaces env = Some interfaces →
  result (discover env st net) = Normal devices →
  let bound := bind_interfaces env interfaces st [] in
  found_locations (discover env st net)
  = list_to_set (replies env (env_passes env) 0 bound.2 ≫= reply_locations)
  ∧ ∀ fd, fd ∈ bound.2 → fd ∉ open_fds (sock_state (discover env st net)).
Proof.
  intros Hi. unfold discover_devices. rewrite Hi.
  destruct (bind_interfaces env interfaces st []) as [st1 sockets] eqn:Hb.
  simpl. destruct sockets as [| sock sockets].
  - intros _. split; [| by intros fd ?%elem_of_nil].
    simpl. by rewrite replies_nil.
  - destruct (listen _ _ _ _ _) as [locations |] eqn:Hl; [| done].
    destruct (parse_device_descriptions _ _ _ _ _ _) as [devs net'].
    simpl. intros _. split.
    + apply listen_spec in Hl. by rewrite (right_id_L ∅ (∪)) in Hl.
    + intros fd Hfd. by apply close_all_closed.
Qed.

(** The binding loop closes nothing. *)
Lemma bind_interfaces_keeps_open env interfaces st sockets fd :
  fd ∈ open_fds st →
  fd ∈ open_fds (bind_interfaces env interfaces st sockets).1.
Proof.
  revert st sockets.
  induction interfaces as [| iface rest IH]; intros st sockets Hfd; simpl.
  - done.
  - destruct (env_iface env iface); auto;
      apply IH; simpl; apply elem_of_app; by left.
Qed.

(** Every socket of the list [sockets] was opened by the binding loop. *)
Lemma bind_interfaces_open env interfaces st sockets fd :
  fd ∈ (bind_interfaces env interfaces st sockets).2 →
  fd ∈ sockets ∨ fd ∈ open_fds (bind_interfaces env interfaces st sockets).1.
Proof.
  revert st sockets.
  induction interfaces as [| iface rest IH]; intros st sockets; simpl.
  - auto.
  - destruct (env_iface env iface); auto.
    intros [H | H]%IH; [| by right].
    apply elem_of_app in H as [H | H]; [by left |].
    right. apply bind_interfaces_keeps_open. simpl.
    apply elem_of_app. by right.
Qed.

(** C6. When a call of [discover_devices] returns, the size of the set of
    locations it has accumulated is the number of distinct values of the
    LOCATION fields, each trimmed, among the lines of the responses it has
    received. *)
Theorem discover_devices_distinct_locations env st (net : Net World)
    interfaces devices :
  env_interfaces env = Some interfaces →
  result (discover env st net) = Normal devices →
  ∃ values : list string,
    NoDup values
    ∧ (∀ v, v ∈ values ↔
         ∃ reply line,
           reply ∈ replies env (env_passes env) 0
                     (bind_interfaces env interfaces st []).2
           ∧ line ∈ Py.splitlines reply
           ∧ spec_location_field line v)
    ∧ size (found_locations (discover env st net)) = length values.
Proof.
  intros Hi Hr.
  destruct (discover_devices_returns env st net interfaces devices Hi Hr)
    as [Hfound _].
  set (received := replies env (env_passes env) 0
                     (bind_interfaces env interfaces st []).2) in *.
  exists (remove_dups (received ≫= reply_locations)).
  split; [apply NoDup_remove_dups |]. split.
  - intros v. rewrite elem_of_remove_dups, list_elem_of_bind.
    split.
    + intros (reply & Hv & Hreply). unfold reply_locations in Hv.
      apply list_elem_of_omap in Hv as (line & Hline & Hloc).
      exists reply, line. by rewrite <- line_location_spec.
    + intros (reply & line & Hreply & Hline & Hspec).
      exists reply. split; [| done]. unfold reply_locations.
      apply list_elem_of_omap. exists line. by rewrite line_location_spec.
  - rewrite Hfound. apply size_list_to_set_remove_dups.
Qed.

(** C8, as the code has it.  When a call of [discover_devices] returns,
    every socket that it has bound and put in its list, which the binding
    loop had opened, is closed; a receive that times out or raises an
    [Exception] does not change that. *)
Theorem discover_devices_closes_bound_sockets env st (net : Net World)
    interfaces devices fd :
  env_interfaces env = Some interfaces →
  result (discover env st net) = Normal devices →
  fd ∈ (bind_interfaces env interfaces st []).2 →
  fd ∈ open_fds (bind_interfaces env interfaces st []).1
  ∧ fd ∉ open_fds (sock_state (discover env st net)).
Proof.
  intros Hi Hr Hfd.
  destruct (discover_devices_returns env st net interfaces devices Hi Hr)
    as [_ Hclosed].
  split; [| by apply Hclosed].
  apply bind_interfaces_open in Hfd as [Hnil | Hopen]; [| done].
  by apply elem_of_nil in Hnil.
Qed.

End DiscoveryProofs.

(** *** Discovery on concrete machines *)

(** The two answers of the one device give one location. *)
Example lan_one_location :
  found_locations
    (Scripted.discover Scripted.lan Scripted.no_sockets
       Scripted.lan_net)
  = {[ "http://10.0.0.5:1400/desc.xml" ]}
  ∧ open_fds (sock_state
      (Scripted.discover Scripted.lan Scripted.no_sockets
         Scripted.lan_net)) = [].
Proof. split; vm_compute; reflexivity. Qed.

Lemma discover_devices_distinct_locations_witness :
  ∃ values : list string,
    NoDup values
    ∧ (∀ v, v ∈ values ↔
         ∃ reply line,
           reply ∈ replies Scripted.lan 2 0 [0; 1]
           ∧ line ∈ Py.splitlines reply
           ∧ spec_location_field line v)
    ∧ size (found_locations
              (Scripted.discover Scripted.lan Scripted.no_sockets
                 Scripted.lan_net)) = length values.
Proof.
  eapply (discover_devices_distinct_locations Scripted.requests_get
            Scripted.fromstring Scripted.urljoin Scripted.lan
            Scripted.no_sockets Scripted.lan_net
            ["lo"; "eth0"; "wlan0"]).
  - reflexivity.
  - vm_compute. reflexivity.
Defined.

(** C8 fails as stated: an interrupt during the listen window leaves the
    call with its socket open. *)
Lemma interrupt_leaves_socket_open :
  result (Scripted.discover Scripted.interrupted Scripted.no_sockets
            (Scripted.start [])) = Interrupted
  ∧ open_fds (sock_state
      (Scripted.discover Scripted.interrupted Scripted.no_sockets
         (Scripted.start []))) = [0].
Proof. split; vm_compute; reflexivity. Qed.

(** A socket on which [bind] fails is not in the list, and stays open. *)
Example bind_error_leaves_socket_open :
  result (Scripted.discover Scripted.unbindable Scripted.no_sockets
            (Scripted.start [])) = Normal ∅
  ∧ open_fds (sock_state
      (Scripted.discover Scripted.unbindable Scripted.no_sockets
         (Scripted.start []))) = [0].
Proof. split; vm_compute; reflexivity. Qed.

Lemma discover_devices_closes_bound_sockets_witness :
  1 ∈ open_fds (bind_interfaces Scripted.lan ["lo"; "eth0"; "wlan0"]
                  Scripted.no_sockets []).1
  ∧ 1 ∉ open_fds (sock_state
         (Scripted.discover Scripted.lan Scripted.no_sockets
            Scripted.lan_net)).
Proof.
  eapply (discover_devices_closes_bound_sockets Scripted.requests_get
            Scripted.fromstring Scripted.urljoin Scripted.lan
            Scripted.no_sockets Scripted.lan_net
            ["lo"; "eth0"; "wlan0"]).
  - reflexivity.
  - vm_compute. reflexivity.
  - vm_compute. apply list_elem_of_further, list_elem_of_here.
Defined.

(* ===================================================================== *)
(** ** The volume lock *)
(* ===================================================================== *)

Section WorkerProofs.

Context {World : Type}.
Variable requests_post :
  World → Request → (RequestException + Response) * World.
Variable set_volume_time : World → N.
Variable device_info : DeviceInfo.
Variable level : Z.
Variable stop_event : StopEvent.
Variable interval : N.

Local Abbreviation worker fuel :=
  (volume_setter_worker World requests_post set_volume_time fuel
     device_info level stop_event interval).
Local Abbreviation iteration :=
  (worker_iteration World requests_post set_volume_time
     device_info level stop_event interval).

Lemma worker_iteration_trace (w : Worker World) :
  let success := (set_volume World requests_post device_info level (w_net w)).1 in
  let t1 := (w_now w + set_volume_time (world (w_net w)))%N in
  w_status (iteration w) = success
  ∧ w_now (iteration w) = wait stop_event t1 interval
  ∧ w_trace (iteration w)
    = w_trace w ++ worker_block success t1 (wait stop_event t1 interval).
Proof.
  unfold worker_iteration.
  by destruct (set_volume World requests_post device_info level (w_net w)).
Qed.

Lemma worker_enters fuel (w : Worker World) :
  is_set stop_event (w_now w) = false →
  worker (S fuel) w = worker fuel (iteration w).
Proof. intros H. simpl. by rewrite H. Qed.

Lemma worker_leaves fuel (w : Worker World) :
  is_set stop_event (w_now w) = true → worker fuel w = Finished w.
Proof. intros H. destruct fuel; simpl; by rewrite H. Qed.




(** The network after a pass is the network after its call of
    [set_volume]. *)
Lemma worker_iteration_net (w : Worker World) :
  w_net (iteration w)
  = (set_volume World requests_post device_info level (w_net w)).2.
Proof.
  unfold worker_iteration.
  by destruct (set_volume World requests_post device_info level (w_net w)).
Qed.




End WorkerProofs.

(** *** The worker against a device that alternates *)

(** Target 30, interval 1500 ticks, stop at 2300: two calls, the second
    one failed, and the worker leaves at 2300, not at 3040. *)
Example worker_stopped_in_second_wait :
  ∃ w, Scripted.worker 10 Scripted.stop_2300 Scripted.worker0
       = Finished w
       ∧ w_now w = 2300%N
       ∧ w_status w = false
       ∧ w_trace w
         = [CallSetVolume true; AcquireLock; WriteStatus true; ReleaseLock;
            WaitStop 20 1520;
            CallSetVolume false; AcquireLock; WriteStatus false; ReleaseLock;
            WaitStop 1540 2300].
Proof. eexists. split; [vm_compute; reflexivity |]. repeat split. Qed.


(* ===================================================================== *)
(** ** More on the control actions *)
(* ===================================================================== *)

Section ControlMore.

Context {World : Type}.
Variable requests_post :
  World → Request → (RequestException + Response) * World.
Variable renders : string → bool.

Local Abbreviation send := (send_soap_request World requests_post).
Local Abbreviation play := (set_media_and_play World requests_post renders).
Local Abbreviation volume := (set_volume World requests_post).

(** The outcome of one [send_soap_request] in terms of the answer of the
    network. *)
Lemma send_soap_request_Some cu st action args (net : Net World) :
  is_Some (send cu st action args None net).1 ↔
  ∃ r w, requests_post (world net) (soap_request cu st action args ∅)
         = (inr r, w) ∧ ¬ (400 ≤ status_code r < 600)%Z.
Proof.
  unfold send_soap_request. simpl.
  destruct (requests_post _ _) as [[e | r] w]; simpl.
  - split; [by intros [? ?] | by intros (? & ? & ? & _)].
  - destruct (raise_for_status r) eqn:Hr; simpl.
    + split; [by intros [? ?] |].
      intros (r' & w' & [= <- <-] & Hs).
      apply raise_for_status_None in Hs. congruence.
    + split; [| by eauto].
      intros _. exists r, w. split; [done |].
      by apply raise_for_status_None.
Qed.

(** X1. The headers that the caller passes win over the two headers that
    [send_soap_request] sets; a header that the caller does not pass has
    the value set by [send_soap_request], and there is no other header. *)
Theorem final_headers_lookup (st action : string)
    (headers : gmap string string) (k : string) :
  final_headers st action headers !! k
  = match headers !! k with
    | Some v => Some v
    | None =>
        if decide (k = "SOAPACTION")
        then Some (Py.dquote +:+ st +:+ "#" +:+ action +:+ Py.dquote)
        else if decide (k = "Content-Type")
        then Some ("text/xml; charset=" +:+ Py.dquote +:+ "utf-8"
                   +:+ Py.dquote)
        else None
    end.
Proof.
  unfold final_headers. rewrite lookup_union.
  destruct (headers !! k) as [v |] eqn:Hk; simpl.
  - by rewrite union_Some_l.
  - rewrite (left_id_L None (∪)).
    destruct (decide (k = "SOAPACTION")) as [-> | Hne1].
    + by rewrite lookup_insert_eq.
    + rewrite lookup_insert_ne by done.
      destruct (decide (k = "Content-Type")) as [-> | Hne2].
      * by rewrite lookup_insert_eq.
      * by rewrite lookup_insert_ne.
Qed.

(** X2. With a RenderingControl endpoint, [set_volume] makes exactly one
    request, a POST of the SetVolume action to the control URL of that
    endpoint, whatever the level is, in 0..100 or not; it returns [True]
    exactly when the network answers with a response whose status is not
    in 400..599. *)
Theorem set_volume_one_request (device_info : DeviceInfo) (level : Z)
    (net : Net World) (rc : Service) :
  services device_info !! RenderingControl = Some rc →
  let rq := soap_request (control_url rc) (service_type rc) "SetVolume"
              (set_vol_args level) ∅ in
  calls (volume device_info level net).2 = calls net ++ [Post rq]
  ∧ ((volume device_info level net).1 = true ↔
     ∃ r w, requests_post (world net) rq = (inr r, w)
            ∧ ¬ (400 ≤ status_code r < 600)%Z).
Proof.
  intros Hrc rq. unfold set_volume. rewrite Hrc.
  pose proof (send_soap_request_calls requests_post (control_url rc)
                (service_type rc) "SetVolume" (set_vol_args level) None net)
    as Hcalls.
  pose proof (send_soap_request_Some (control_url rc) (service_type rc)
                "SetVolume" (set_vol_args level) net) as Hsome.
  fold rq in Hsome.
  destruct (send _ _ _ _ _ _) as [[r |] net1]; simpl in *.
  - split; [done |]. split; [intros _; apply Hsome; eauto | done].
  - split; [done |]. split; [done |].
    intros H. apply Hsome in H as [? ?]. done.
Qed.

(** X3. With an AVTransport endpoint, [set_media_and_play] makes no
    request when the console does not render the first message, and
    raises [MarkupError]; when it renders it, it makes the
    SetAVTransportURI request and at most the Play request after it, both
    to the control URL of that endpoint, and nothing else.  When it
    returns [True] it has made both, in that order. *)
Theorem set_media_and_play_calls (device_info : DeviceInfo)
    (media_url : string) (net : Net World) (av : Service) :
  services device_info !! AVTransport = Some av →
  let set_uri := Post (soap_request (control_url av) (service_type av)
                         "SetAVTransportURI" (set_uri_args media_url) ∅) in
  let play_rq := Post (soap_request (control_url av) (service_type av)
                         "Play" play_args ∅) in
  (renders (setting_media_text (friendly_name device_info)) = false →
   play device_info media_url net = (MarkupError, net))
  ∧ (renders (setting_media_text (friendly_name device_info)) = true →
     calls (play device_info media_url net).2 = calls net ++ [set_uri]
     ∧ (play device_info media_url net).1 = Returns false
     ∨ calls (play device_info media_url net).2
       = calls net ++ [set_uri; play_rq])
  ∧ ((play device_info media_url net).1 = Returns true →
     calls (play device_info media_url net).2
     = calls net ++ [set_uri; play_rq]).
Proof.
  intros Hav set_uri play_rq. unfold set_media_and_play. rewrite Hav.
  destruct (renders (setting_media_text _)) eqn:Hr1;
    [| by repeat split].
  pose proof (send_soap_request_calls requests_post (control_url av)
                (service_type av) "SetAVTransportURI"
                (set_uri_args media_url) None net) as H1.
  destruct (send _ _ "SetAVTransportURI" _ _ _) as [[r1 |] net1]; simpl in *.
  - pose proof (send_soap_request_calls requests_post (control_url av)
                  (service_type av) "Play" play_args None net1) as H2.
    assert (Hboth : ∀ net2 : Net World, calls net2
                = calls net1 ++ [Post (soap_request (control_url av)
                    (service_type av) "Play" play_args ∅)] →
              calls net2 = calls net ++ [set_uri; play_rq]).
    { intros net2 ->. rewrite H1. by rewrite <- (assoc_L (++)). }
    destruct (send _ _ "Play" _ _ _) as [[r2 |] net2]; simpl in *.
    + destruct (renders (play_sent_text _)); simpl;
        (split; [done |]); (split; [intros _; right | intros _]);
        by apply Hboth.
    + split; [done |]. split; [intros _; right | intros _]; by apply Hboth.
  - split; [done |]. split; [by left | done].
Qed.

End ControlMore.

Lemma set_volume_one_request_witness :
  let rq := soap_request (control_url Scripted.rc_endpoint)
              (service_type Scripted.rc_endpoint) "SetVolume"
              (set_vol_args 150) ∅ in
  calls (set_volume _ Scripted.requests_post Scripted.renderer 150
           (Scripted.start [Scripted.status 200])).2
  = [Post rq]
  ∧ ((set_volume _ Scripted.requests_post Scripted.renderer 150
        (Scripted.start [Scripted.status 200])).1 = true ↔
     ∃ r w, Scripted.requests_post [Scripted.status 200] rq = (inr r, w)
            ∧ ¬ (400 ≤ status_code r < 600)%Z).
Proof.
  apply (set_volume_one_request Scripted.requests_post Scripted.renderer 150
           (Scripted.start [Scripted.status 200]) Scripted.rc_endpoint).
  reflexivity.
Defined.

Lemma set_media_and_play_calls_witness :
  let set_uri := Post (soap_request (control_url Scripted.av_endpoint)
                         (service_type Scripted.av_endpoint)
                         "SetAVTransportURI"
                         (set_uri_args Scripted.video) ∅) in
  let play_rq := Post (soap_request (control_url Scripted.av_endpoint)
                         (service_type Scripted.av_endpoint)
                         "Play" play_args ∅) in
  let r := Scripted.play Scripted.renderer Scripted.video
             (Scripted.start [Scripted.status 200; Scripted.status 404]) in
  (calls r.2 = [] ++ [set_uri] ∧ r.1 = Returns false
   ∨ calls r.2 = [] ++ [set_uri; play_rq])
  ∧ Scripted.play Scripted.tv Scripted.video
      (Scripted.start [Scripted.status 200])
    = (MarkupError, Scripted.start [Scripted.status 200]).
Proof.
  destruct (set_media_and_play_calls Scripted.requests_post Scripted.renders
              Scripted.renderer Scripted.video
              (Scripted.start [Scripted.status 200; Scripted.status 404])
              Scripted.av_endpoint eq_refl) as (_ & Hok & _).
  destruct (set_media_and_play_calls Scripted.requests_post Scripted.renders
              Scripted.tv Scripted.video
              (Scripted.start [Scripted.status 200])
              Scripted.av_endpoint eq_refl) as (Hraise & _ & _).
  split; [apply Hok | apply Hraise]; reflexivity.
Defined.

(* ===================================================================== *)
(** ** More on the volume lock *)
(* ===================================================================== *)

Section WorkerMore.

Context {World : Type}.
Variable requests_post :
  World → Request → (RequestException + Response) * World.
Variable set_volume_time : World → N.
Variable device_info : DeviceInfo.
Variable level : Z.
Variable stop_event : StopEvent.
Variable interval : N.

Local Abbreviation worker fuel :=
  (volume_setter_worker World requests_post set_volume_time fuel
     device_info level stop_event interval).
Local Abbreviation iteration :=
  (worker_iteration World requests_post set_volume_time
     device_info level stop_event interval).

(** A wait never ends before it starts nor after its timeout. *)
Lemma wait_bounds (now : N) :
  (now ≤ wait stop_event now interval ≤ now + interval)%N.
Proof.
  unfold wait. destruct (set_at stop_event) as [t |]; [| lia].
  destruct (t <=? now)%N eqn:Hle; [lia |].
  apply N.leb_gt in Hle. lia.
Qed.

(** The run as a sequence of passes. *)
Lemma worker_passes fuel (w : Worker World) :
  ∃ passes : list (bool * N * N),
    length passes ≤ fuel
    ∧ w_trace (run_worker (worker fuel w))
      = w_trace w ++ (passes ≫= pass_steps)
    ∧ w_status (run_worker (worker fuel w))
      = default (w_status w) (last (passes.*1.*1))
    ∧ Forall (λ p, (p.1.2 ≤ p.2 ≤ p.1.2 + interval)%N) passes
    ∧ (w_now w ≤ w_now (run_worker (worker fuel w)))%N.
Proof.
  revert w. induction fuel as [| fuel IH]; intros w.
  - exists []. simpl. destruct (is_set _ _); simpl;
      rewrite ?app_nil_r; repeat split; auto; lia.
  - simpl. destruct (is_set stop_event (w_now w)) eqn:Hs.
    + exists []. simpl. rewrite app_nil_r. repeat split; auto; lia.
    + destruct (IH (iteration w)) as (passes & Hlen & Htr & Hst & Hw & Hnow).
      destruct (worker_iteration_trace requests_post set_volume_time
                  device_info level stop_event interval w)
        as (Hst1 & Hnow1 & Htr1).
      set (success := (set_volume World requests_post device_info level
                         (w_net w)).1) in *.
      set (t1 := (w_now w + set_volume_time (world (w_net w)))%N) in *.
      exists ((success, t1, wait stop_event t1 interval) :: passes).
      split; [simpl; lia |]. split; [| split; [| split]].
      * rewrite Htr, Htr1. simpl. unfold pass_steps at 2. simpl.
        by rewrite <- (assoc_L (++)).
      * rewrite Hst, Hst1. simpl. destruct passes as [| p passes]; [done |].
        simpl. destruct (last _) eqn:Hlast; [done |].
        by apply last_None in Hlast.
      * constructor; [apply wait_bounds | done].
      * rewrite Hnow1 in Hnow. fold t1 in Hnow.
        pose proof (wait_bounds t1). lia.
Qed.

Lemma passes_steps_cons (success : bool) (results : list bool)
    (t1 t2 : N) (times : list (N * N)) :
  passes_steps (success :: results) ((t1, t2) :: times)
  = worker_block success t1 t2 ++ passes_steps results times.
Proof. reflexivity. Qed.

(** X4. A run of the worker that makes [n] passes is [n] calls of
    [set_volume] in a row on the network: the network of the worker is
    the network after these calls, its trace is what it had done before
    followed by one whole pass per call (call, acquire, write the result
    of that call, release, wait), and the shared status is the result of
    the last of these calls, or what it was when the run made no call. *)
Theorem worker_status_is_last_result fuel (w : Worker World) :
  ∃ (n : nat) (times : list (N * N)),
    n ≤ fuel
    ∧ length times = n
    ∧ w_net (run_worker (worker fuel w))
      = (volume_attempts requests_post n device_info level (w_net w)).2
    ∧ w_status (run_worker (worker fuel w))
      = default (w_status w)
          (last (volume_attempts requests_post n device_info level
                   (w_net w)).1)
    ∧ w_trace (run_worker (worker fuel w))
      = w_trace w ++
        passes_steps
          (volume_attempts requests_post n device_info level (w_net w)).1
          times.
Proof.
  revert w. induction fuel as [| fuel IH]; intros w.
  - exists 0, []. simpl. destruct (is_set _ _); simpl;
      rewrite app_nil_r; repeat split; auto.
  - simpl. destruct (is_set stop_event (w_now w)) eqn:Hs.
    + exists 0, []. simpl. rewrite app_nil_r. repeat split; auto. lia.
    + destruct (IH (iteration w)) as (n & times & Hn & Hlen & Hnet & Hst & Htr).
      destruct (worker_iteration_trace requests_post set_volume_time
                  device_info level stop_event interval w)
        as (Hst1 & _ & Htr1).
      pose proof (worker_iteration_net requests_post set_volume_time
                    device_info level stop_event interval w) as Hnet1.
      exists (S n),
        ((w_now w + set_volume_time (world (w_net w)),
          wait stop_event (w_now w + set_volume_time (world (w_net w)))
            interval)%N :: times).
      simpl.
      destruct (set_volume World requests_post device_info level (w_net w))
        as [success net1] eqn:Hv. simpl in *.
      rewrite Hnet1 in Hnet, Hst, Htr.
      destruct (volume_attempts requests_post n device_info level net1)
        as [results net'] eqn:Ha. simpl in *.
      split; [lia |]. split; [by rewrite Hlen |]. split; [done |]. split.
      * rewrite Hst, Hst1. destruct results as [| b results]; [done |].
        simpl. destruct (last _) eqn:Hlast; [done |].
        by apply last_None in Hlast.
      * rewrite Htr, Htr1, passes_steps_cons.
        by rewrite <- (assoc_L (++)).
Qed.

(** X5. The clock of the worker never goes back, and every wait that a
    run adds to the trace ends between its start and its start plus the
    interval. *)
Theorem worker_waits_bounded fuel (w : Worker World) :
  (w_now w ≤ w_now (run_worker (worker fuel w)))%N
  ∧ ∀ since until,
      WaitStop since until ∈ w_trace (run_worker (worker fuel w)) →
      WaitStop since until ∈ w_trace w
      ∨ (since ≤ until ≤ since + interval)%N.
Proof.
  destruct (worker_passes fuel w) as (passes & _ & Htr & _ & Hw & Hnow).
  split; [done |]. intros since until.
  rewrite Htr. intros [Hold | Hnew]%elem_of_app; auto.
  right. apply list_elem_of_bind in Hnew as (p & Hin & Hp).
  rewrite Forall_forall in Hw. specialize (Hw p Hp).
  unfold pass_steps, worker_block in Hin.
  repeat (apply elem_of_cons in Hin as [Hin | Hin]; [try done |]).
  - by injection Hin as -> ->.
  - by apply elem_of_nil in Hin.
Qed.

(** The calls of one pass. *)
Lemma worker_iteration_calls (w : Worker World) :
  calls (w_net (iteration w))
  = calls (w_net w) ++
    match services device_info !! RenderingControl with
    | Some rc => [Post (soap_request (control_url rc) (service_type rc)
                          "SetVolume" (set_vol_args level) ∅)]
    | None => []
    end.
Proof.
  unfold worker_iteration.
  pose proof (set_volume_calls requests_post device_info level (w_net w))
    as Hc.
  by destruct (set_volume _ _ _ _ _) as [success net'].
Qed.

(** X6. All that a run of the worker sends is the same SetVolume request
    to the RenderingControl endpoint, once per pass; for a device without
    that endpoint it sends nothing. *)
Theorem worker_sends_set_volume_only fuel (w : Worker World) :
  ∃ n, n ≤ fuel
    ∧ length (w_trace (run_worker (worker fuel w)))
      = length (w_trace w) + 5 * n
    ∧ calls (w_net (run_worker (worker fuel w)))
      = calls (w_net w) ++
        match services device_info !! RenderingControl with
        | Some rc =>
            replicate n
              (Post (soap_request (control_url rc) (service_type rc)
                       "SetVolume" (set_vol_args level) ∅))
        | None => []
        end.
Proof.
  revert w. induction fuel as [| fuel IH]; intros w.
  - exists 0. simpl. destruct (is_set _ _); simpl;
      destruct (services _ !! _); rewrite ?app_nil_r; repeat split; lia.
  - simpl. destruct (is_set stop_event (w_now w)) eqn:Hs.
    + exists 0. simpl.
      destruct (services _ !! _); rewrite ?app_nil_r; repeat split; lia.
    + destruct (IH (iteration w)) as (n & Hn & Hlen & Hcalls).
      exists (S n). split; [lia |]. split.
      * rewrite Hlen.
        destruct (worker_iteration_trace requests_post set_volume_time
                    device_info level stop_event interval w)
          as (_ & _ & ->).
        rewrite length_app. simpl. lia.
      * rewrite Hcalls, worker_iteration_calls.
        destruct (services _ !! _); simpl; [| by rewrite !app_nil_r].
        by rewrite <- (assoc_L (++)).
Qed.

(** X7. When the event is set while a call of [set_volume] is under way,
    the wait that follows the call returns at once and the worker leaves
    the loop at the end of that call, having written its result. *)
Theorem worker_stopped_during_call fuel (w : Worker World) (ts : N) :
  set_at stop_event = Some ts →
  (w_now w < ts ≤ w_now w + set_volume_time (world (w_net w)))%N →
  worker (S fuel) w = Finished (iteration w)
  ∧ w_now (iteration w) = (w_now w + set_volume_time (world (w_net w)))%N
  ∧ w_status (iteration w)
    = (set_volume World requests_post device_info level (w_net w)).1.
Proof.
  intros Hs [Hlo Hhi].
  destruct (worker_iteration_trace requests_post set_volume_time
              device_info level stop_event interval w) as (Hst & Hnow & _).
  assert (Hw : wait stop_event
                 (w_now w + set_volume_time (world (w_net w))) interval
               = (w_now w + set_volume_time (world (w_net w)))%N).
  { unfold wait. rewrite Hs.
    destruct (ts <=? _)%N eqn:Hle; [done |]. apply N.leb_gt in Hle. lia. }
  rewrite Hw in Hnow. split; [| done].
  rewrite worker_enters
    by (unfold is_set; rewrite Hs; apply N.leb_gt; lia).
  apply worker_leaves. rewrite Hnow. unfold is_set. rewrite Hs.
  by apply N.leb_le.
Qed.




End WorkerMore.

Lemma worker_waits_bounded_witness :
  (0 ≤ w_now (run_worker (Scripted.worker 10 Scripted.stop_2300
                            Scripted.worker0)))%N
  ∧ (WaitStop 1540 2300 ∈ w_trace Scripted.worker0
     ∨ (1540 ≤ 2300 ≤ 1540 + 1500)%N).
Proof.
  destruct (worker_waits_bounded Scripted.requests_post
              Scripted.set_volume_time Scripted.renderer 30
              Scripted.stop_2300 1500 10 Scripted.worker0) as [Hnow Hwait].
  split; [exact Hnow |]. apply Hwait.
  apply list_elem_of_lookup. exists 9. vm_compute. reflexivity.
Defined.

Lemma worker_stopped_during_call_witness :
  Scripted.worker 1 {| set_at := Some 10%N |} Scripted.worker0
  = Finished (Scripted.iteration {| set_at := Some 10%N |} Scripted.worker0)
  ∧ w_now (Scripted.iteration {| set_at := Some 10%N |} Scripted.worker0)
    = (0 + 20)%N
  ∧ w_status (Scripted.iteration {| set_at := Some 10%N |} Scripted.worker0)
    = (set_volume _ Scripted.requests_post Scripted.renderer 30
         (Scripted.start Scripted.alternating)).1.
Proof.
  apply (worker_stopped_during_call Scripted.requests_post
           Scripted.set_volume_time Scripted.renderer 30
           {| set_at := Some 10%N |} 1500 0 Scripted.worker0 10%N).
  - reflexivity.
  - vm_compute. split; [reflexivity | discriminate].
Defined.


(* ===================================================================== *)
(** ** More on strings *)
(* ===================================================================== *)

Lemma lstrip_first (s : string) (c : ascii) :
  first_char (Py.lstrip s) = Some c → Py.is_space c = false.
Proof.
  induction s as [| a s IH]; simpl; [done |].
  destruct (Py.is_space a) eqn:Ha; [done |]. simpl. by intros [= <-].
Qed.

Lemma rstrip_first (s : string) (c : ascii) :
  first_char s = Some c → Py.is_space c = false →
  first_char (Py.rstrip s) = Some c.
Proof.
  destruct s as [| a s]; simpl; [done |]. intros [= ->] Hc.
  destruct (Py.rstrip s); [by rewrite Hc | done].
Qed.

Lemma rstrip_first_inv (s : string) (c : ascii) :
  first_char (Py.rstrip s) = Some c → first_char s = Some c.
Proof.
  destruct s as [| a s]; simpl; [done |].
  destruct (Py.rstrip s); [destruct (Py.is_space a) |]; simpl; done.
Qed.

Lemma rstrip_last (s : string) (c : ascii) :
  last_char (Py.rstrip s) = Some c → Py.is_space c = false.
Proof.
  induction s as [| a s IH]; simpl; [done |].
  destruct (Py.rstrip s) as [| b r] eqn:Hr.
  - destruct (Py.is_space a) eqn:Ha; simpl; [done |]. by intros [= <-].
  - simpl. simpl in IH. done.
Qed.

(** What [strip] returns neither starts nor ends with white space. *)
Lemma strip_trimmed (s : string) : trimmed (Py.strip s).
Proof.
  unfold Py.strip. split.
  - intros c Hc. apply rstrip_first_inv in Hc. by apply lstrip_first in Hc.
  - apply rstrip_last.
Qed.

(* ===================================================================== *)
(** ** More on the description resolver *)
(* ===================================================================== *)

Section ResolverMore.

Context {World : Type}.
Variable requests_get :
  World → string → Z → (RequestException + Response) * World.
Variable fromstring : string → option Element.
Variable urljoin : string → string → option string.

Local Abbreviation add := (add_service urljoin).
Local Abbreviation add_all := (add_services urljoin).
Local Abbreviation build := (build_device_info fromstring urljoin).
Local Abbreviation process :=
  (process_location World requests_get fromstring urljoin).
Local Abbreviation resolve :=
  (resolve_from World requests_get fromstring urljoin).
Local Abbreviation parse :=
  (parse_device_descriptions World requests_get fromstring urljoin).

Local Abbreviation after_get := (fetched requests_get).

(** One pass of the loop: the network after it, and the mapping, which
    is left as it was or gets the record built from the response. *)
Lemma process_location_cases found loc (net : Net World) :
  (process found loc net).2 = after_get loc net
  ∧ ((process found loc net).1 = found
     ∨ ∃ r w d,
         requests_get (world net) loc 3 = (inr r, w)
         ∧ raise_for_status r = None
         ∧ build loc r = Built d
         ∧ has_capability d = true
         ∧ (process found loc net).1 = <[friendly_name d := d]> found).
Proof.
  unfold process_location, fetched.
  destruct (requests_get _ _ _) as [[e | r] w] eqn:Hget; simpl; [by auto |].
  destruct (raise_for_status r) eqn:Hst; simpl; [by auto |].
  destruct (build loc r) as [| | d] eqn:Hb; simpl; [by auto | by auto |].
  destruct (has_capability d) eqn:Hc; simpl; [| by auto].
  split; [done |]. right. by exists r, w, d.
Qed.

Lemma resolve_from_app found l1 l2 (net : Net World) :
  resolve found (l1 ++ l2) net
  = resolve (resolve found l1 net).1 l2 (resolve found l1 net).2.
Proof.
  revert found net. induction l1 as [| loc l1 IH]; intros found net; simpl.
  - done.
  - destruct (process found loc net) as [found' net']. apply IH.
Qed.

Lemma resolve_from_calls locations found (net : Net World) :
  calls (resolve found locations net).2
  = calls net ++ ((λ loc, Get loc 3) <$> locations).
Proof.
  revert found net.
  induction locations as [| loc rest IH]; intros found net; simpl.
  - by rewrite app_nil_r.
  - destruct (process_location_cases found loc net) as [Hnet _].
    destruct (process found loc net) as [found' net']. simpl in Hnet.
    rewrite IH, Hnet. simpl. by rewrite <- (assoc_L (++)).
Qed.

(** A property of the records that every built record has holds of all
    the records of the mapping. *)
Lemma resolve_from_invariant (P : string → DeviceInfo → Prop)
    locations found (net : Net World) :
  (∀ loc r d, loc ∈ locations → build loc r = Built d →
     P (friendly_name d) d) →
  map_Forall P found →
  map_Forall P (resolve found locations net).1.
Proof.
  revert found net.
  induction locations as [| loc rest IH]; intros found net Hbuilt Hfound.
  - done.
  - simpl.
    destruct (process_location_cases found loc net) as [_ Hcases].
    destruct (process found loc net) as [found' net']. simpl in Hcases.
    apply IH.
    + intros loc' r d Hin. apply Hbuilt. by apply list_elem_of_further.
    + destruct Hcases as [-> | (r & w & d & _ & _ & Hb & _ & ->)]; [done |].
      apply map_Forall_insert_2; [| done].
      apply (Hbuilt loc r d); [apply list_elem_of_here | done].
Qed.

(** The walk over the services keeps the entries filed under the name
    that their type contains. *)
Lemma add_service_well_tagged base_url svcs service svcs' :
  well_tagged svcs → add base_url svcs service = Some svcs' →
  well_tagged svcs'.
Proof.
  intros Hw. unfold add_service.
  destruct (find "serviceType" service) as [tn |]; [| by intros [= <-]].
  destruct (find "controlURL" service) as [un |]; [| by intros [= <-]].
  destruct (text tn) as [st |]; [| by intros [= <-]].
  destruct (text un) as [cu |]; [| by intros [= <-]].
  destruct (urljoin base_url cu) as [u |]; [| done].
  destruct (Py.contains AVTransport st) eqn:Ha.
  - intros [= <-] k e. rewrite lookup_insert. case_decide.
    + intros [= <-]. left. by subst.
    + apply Hw.
  - destruct (Py.contains RenderingControl st) eqn:Hr; [| by intros [= <-]].
    intros [= <-] k e. rewrite lookup_insert. case_decide.
    + intros [= <-]. right. by subst.
    + apply Hw.
Qed.

Lemma add_services_well_tagged base_url l svcs svcs' :
  well_tagged svcs → add_all base_url svcs l = Some svcs' →
  well_tagged svcs'.
Proof.
  revert svcs. induction l as [| service l IH]; intros svcs Hw; simpl.
  - by intros [= <-].
  - destruct (add base_url svcs service) as [svcs1 |] eqn:H1; [| done].
    apply IH. by eapply add_service_well_tagged.
Qed.

(** What a built record is made of. *)
Lemma build_device_info_Built loc r d :
  build loc r = Built d →
  location d = loc
  ∧ (∃ name_text, friendly_name d = Py.strip name_text)
  ∧ well_tagged (services d).
Proof.
  unfold build_device_info.
  destruct (fromstring (content r)) as [xml_root |]; [| done].
  destruct (find_descendant "device" xml_root) as [dev |]; [| done].
  destruct (find "friendlyName" dev) as [node |]; [| done].
  destruct (text node) as [name_text |]; [| done].
  destruct (find_descendant "serviceList" dev) as [sl |].
  - destruct (add_all (url r) ∅ (findall "service" sl)) as [svcs |] eqn:Hs;
      [| done].
    intros [= <-]. simpl. split; [done |]. split; [by eexists |].
    eapply add_services_well_tagged; [| done]. by intros k e.
  - intros [= <-]. simpl. split; [done |]. split; [by eexists |].
    by intros k e.
Qed.

(** X9. When no pass of the loop reaches the handler that logs (no body
    fails to parse and no control URL fails to resolve),
    [parse_device_descriptions] makes one GET per location, in the order
    of the loop, each with a timeout of 3 seconds, and no other call,
    whether the fetches succeed, raise or are answered with an error
    status. *)
Theorem parse_device_descriptions_calls (locations : list string)
    (net : Net World) :
  never_logs requests_get fromstring urljoin ∅ locations net = true →
  calls (parse locations net).2
  = calls net ++ ((λ loc, Get loc 3) <$> locations).
Proof. intros _. apply resolve_from_calls. Qed.

(** X10. In the mapping that [parse_device_descriptions] returns every
    record is stored under its own friendly name, and its location is
    one of the locations that were given. *)
Theorem parse_device_descriptions_keys (locations : list string)
    (net : Net World) (name : string) (d : DeviceInfo) :
  (parse locations net).1 !! name = Some d →
  friendly_name d = name ∧ location d ∈ locations.
Proof.
  intros Hd.
  pose proof (resolve_from_invariant
                (λ name d, friendly_name d = name ∧ location d ∈ locations)
                locations ∅ net) as Hinv.
  apply (Hinv) in Hd; [done | | apply map_Forall_empty].
  intros loc r d' Hin Hb.
  apply build_device_info_Built in Hb as (-> & _ & _). done.
Qed.

(** X11. In every record of the mapping the services are stored under
    AVTransport or RenderingControl only; the type of the endpoint stored
    under AVTransport contains [AVTransport], and the type of the one
    stored under RenderingControl contains [RenderingControl] and does
    not contain [AVTransport]. *)
Theorem parse_device_descriptions_well_tagged (locations : list string)
    (net : Net World) (name : string) (d : DeviceInfo) (k : string)
    (e : Service) :
  (parse locations net).1 !! name = Some d →
  services d !! k = Some e →
  (k = AVTransport ∧ Py.contains AVTransport (service_type e) = true)
  ∨ (k = RenderingControl
     ∧ Py.contains RenderingControl (service_type e) = true
     ∧ Py.contains AVTransport (service_type e) = false).
Proof.
  intros Hd.
  pose proof (resolve_from_invariant (λ _ d, well_tagged (services d))
                locations ∅ net) as Hinv.
  apply Hinv in Hd; [apply Hd | | apply map_Forall_empty].
  intros loc r d' _ Hb.
  by apply build_device_info_Built in Hb as (_ & _ & ?).
Qed.

(** X12. The keys of the mapping neither start nor end with white
    space. *)
Theorem parse_device_descriptions_trimmed (locations : list string)
    (net : Net World) (name : string) (d : DeviceInfo) :
  (parse locations net).1 !! name = Some d → trimmed name.
Proof.
  intros Hd.
  pose proof (resolve_from_invariant (λ name _, trimmed name)
                locations ∅ net) as Hinv.
  apply Hinv in Hd; [done | | apply map_Forall_empty].
  intros loc r d' _ Hb.
  apply build_device_info_Built in Hb as (_ & (t & ->) & _).
  apply strip_trimmed.
Qed.

(** X13. When two locations give the same friendly name the one visited
    last wins: the record built from the last location of the loop, if
    it has a capability, is the one found under its name, whatever the
    earlier locations have stored there. *)
Theorem last_location_wins (found : gmap string DeviceInfo)
    (locations : list string) (loc : string) (net : Net World)
    (r : Response) (w : World) (d : DeviceInfo) :
  requests_get (world (resolve found locations net).2) loc 3 = (inr r, w) →
  raise_for_status r = None →
  build loc r = Built d →
  has_capability d = true →
  (resolve found (locations ++ [loc]) net).1 !! friendly_name d = Some d.
Proof.
  intros Hget Hst Hb Hc. rewrite resolve_from_app. simpl.
  unfold process_location at 1. rewrite Hget, Hst, Hb, Hc. simpl.
  apply lookup_insert_eq.
Qed.

(** X14. A location whose fetch raises a [RequestException], or is
    answered with a status in 400..599, leaves the mapping as it was,
    and the loop goes on with the locations that remain. *)
Theorem failed_fetch_skipped (found : gmap string DeviceInfo)
    (loc : string) (rest : list string) (net : Net World) :
  (∃ e w, requests_get (world net) loc 3 = (inl e, w))
  ∨ (∃ r w, requests_get (world net) loc 3 = (inr r, w)
            ∧ (400 ≤ status_code r < 600)%Z) →
  resolve found (loc :: rest) net = resolve found rest (after_get loc net).
Proof.
  intros H. simpl. unfold process_location, fetched.
  destruct H as [(e & w & ->) | (r & w & -> & H)]; simpl; [done |].
  destruct (raise_for_status r) eqn:Hst; [done |].
  apply raise_for_status_None in Hst. done.
Qed.

(** X15. A document without a [device] element below its root, or whose
    first device has no [friendlyName] child or one without text, gives
    no record: the mapping is left as it was, and the loop goes on. *)
Theorem nameless_document_skipped (found : gmap string DeviceInfo)
    (loc : string) (rest : list string) (net : Net World)
    (r : Response) (w : World) (xml_root : Element) :
  requests_get (world net) loc 3 = (inr r, w) →
  fromstring (content r) = Some xml_root →
  (find_descendant "device" xml_root ≫= find "friendlyName") ≫= text = None →
  resolve found (loc :: rest) net = resolve found rest (after_get loc net).
Proof.
  intros Hget Hfs Hname. simpl. unfold process_location, fetched.
  rewrite Hget. simpl.
  destruct (raise_for_status r); [done |].
  unfold build_device_info. rewrite Hfs.
  destruct (find_descendant "device" xml_root) as [dev |]; [| done].
  simpl in Hname.
  destruct (find "friendlyName" dev) as [node |]; [| done].
  simpl in Hname. by rewrite Hname.
Qed.

Lemma add_services_app base_url svcs l1 l2 :
  add_all base_url svcs (l1 ++ l2)
  = add_all base_url svcs l1 ≫= λ svcs1, add_all base_url svcs1 l2.
Proof.
  revert svcs. induction l1 as [| s l1 IH]; intros svcs; simpl; [done |].
  destruct (add base_url svcs s); [apply IH | done].
Qed.

(** X16. When a document lists several services of one kind the last
    one wins: after a walk that ends with a service whose type contains
    [AVTransport], the AVTransport endpoint is that service, whatever the
    services before it were. *)
Theorem last_service_wins (base_url : string) (svcs svcs1 : gmap string Service)
    (l : list Element) (service type_node url_node : Element)
    (type_text url_text resolved : string) :
  add_all base_url svcs l = Some svcs1 →
  find "serviceType" service = Some type_node →
  find "controlURL" service = Some url_node →
  text type_node = Some type_text →
  text url_node = Some url_text →
  urljoin base_url url_text = Some resolved →
  Py.contains AVTransport type_text = true →
  add_all base_url svcs (l ++ [service])
  = Some (<[AVTransport := {| service_type := type_text;
                              control_url := resolved |}]> svcs1).
Proof.
  intros Hl Ht Hu Htt Hut Hj Hc. rewrite add_services_app, Hl. simpl.
  unfold add_service. by rewrite Ht, Hu, Htt, Hut, Hj, Hc.
Qed.

End ResolverMore.

(* ===================================================================== *)
(** ** More on discovery *)
(* ===================================================================== *)

(** Without an interface that binds, the list of sockets stays as it
    is. *)
Lemma bind_interfaces_none env interfaces st sockets :
  Forall (λ iface, env_iface env iface ≠ Bound) interfaces →
  (bind_interfaces env interfaces st sockets).2 = sockets.
Proof.
  intros H. revert st. induction H as [| iface rest Hi _ IH]; intros st.
  - done.
  - simpl. destruct (env_iface env iface); auto. done.
Qed.

(** The sockets that the binding loop puts in the list are new. *)
Lemma bind_interfaces_fresh env interfaces st sockets fd :
  fd ∈ (bind_interfaces env interfaces st sockets).2 →
  fd ∈ sockets ∨ next_fd st ≤ fd.
Proof.
  revert st sockets.
  induction interfaces as [| iface rest IH]; intros st sockets; simpl.
  - auto.
  - destruct (env_iface env iface); auto.
    + intros [H | H]%IH; [by left | right]. simpl in H. lia.
    + intros [H | H]%IH.
      * apply elem_of_app in H as [H | H]; [by left | right].
        apply list_elem_of_singleton in H. lia.
      * right. simpl in H. lia.
Qed.

(** Every value that the listen loop adds is trimmed. *)
Lemma reply_locations_trimmed (response value : string) :
  value ∈ reply_locations response → trimmed value.
Proof.
  unfold reply_locations. intros (line & _ & Hl)%list_elem_of_omap.
  unfold line_location in Hl.
  destruct (Py.startswith _ _); [| done].
  destruct (Py.split_once _ _) as [[? raw] |]; [| done].
  injection Hl as <-. apply strip_trimmed.
Qed.

Section DiscoveryMore.

Context {World : Type}.
Variable requests_get :
  World → string → Z → (RequestException + Response) * World.
Variable fromstring : string → option Element.
Variable urljoin : string → string → option string.

Local Abbreviation discover :=
  (discover_devices World requests_get fromstring urljoin).

(** X17. When the interfaces cannot be listed, or none of them binds,
    [discover_devices] returns the empty mapping without listening and
    without any HTTP request. *)
Theorem discover_devices_without_sockets env st (net : Net World) :
  match env_interfaces env with
  | None => True
  | Some interfaces =>
      Forall (λ iface, env_iface env iface ≠ Bound) interfaces
  end →
  result (discover env st net) = Normal ∅
  ∧ found_locations (discover env st net) = ∅
  ∧ net_after (discover env st net) = net.
Proof.
  unfold discover_devices.
  destruct (env_interfaces env) as [interfaces |]; [| done].
  intros H.
  pose proof (bind_interfaces_none env interfaces st [] H) as Hs.
  destruct (bind_interfaces env interfaces st []) as [st1 sockets].
  simpl in Hs. by subst.
Qed.

(** X18. A call of [discover_devices] closes no socket but its own: a
    socket that was open before the call is open after it.  (The
    descriptors of the open sockets are below the next descriptor.) *)
Theorem discover_devices_keeps_other_sockets env st (net : Net World)
    (fd : nat) :
  Forall (λ x, x < next_fd st) (open_fds st) →
  fd ∈ open_fds st →
  fd ∈ open_fds (sock_state (discover env st net)).
Proof.
  intros Hwf Hfd. unfold discover_devices.
  destruct (env_interfaces env) as [interfaces |]; [| done].
  pose proof (bind_interfaces_keeps_open env interfaces st [] fd Hfd) as Hk.
  pose proof (bind_interfaces_fresh env interfaces st [] fd) as Hfresh.
  destruct (bind_interfaces env interfaces st []) as [st1 sockets].
  simpl in *. destruct sockets as [| sock sockets]; [done |].
  destruct (listen _ _ _ _ _) as [locations |]; [| done].
  destruct (parse_device_descriptions _ _ _ _ _ _) as [devs net'].
  simpl. apply list_elem_of_filter. split; [| done].
  intros Hin. apply Hfresh in Hin as [Hin | Hin].
  - by apply elem_of_nil in Hin.
  - rewrite Forall_forall in Hwf. specialize (Hwf fd Hfd). lia.
Qed.

(** X21. Every location that a call of [discover_devices] has found
    neither starts nor ends with white space. *)
Theorem discover_devices_locations_trimmed env st (net : Net World)
    (loc : string) :
  loc ∈ found_locations (discover env st net) → trimmed loc.
Proof.
  unfold discover_devices.
  destruct (env_interfaces env) as [interfaces |]; [| by intros ?%elem_of_empty].
  destruct (bind_interfaces env interfaces st []) as [st1 sockets].
  destruct sockets as [| sock sockets]; [by intros ?%elem_of_empty |].
  destruct (listen _ _ _ _ _) as [locations |] eqn:Hl;
    [| by intros ?%elem_of_empty].
  apply listen_spec in Hl as ->.
  destruct (parse_device_descriptions _ _ _ _ _ _) as [devs net']. simpl.
  rewrite (right_id_L ∅ (∪)), elem_of_list_to_set, list_elem_of_bind.
  intros (reply & Hin & _). by eapply reply_locations_trimmed.
Qed.

End DiscoveryMore.

(* ===================================================================== *)
(** ** The table and the dialogue *)
(* ===================================================================== *)

Section MainMore.

Context {World : Type}.
Variable requests_post :
  World → Request → (RequestException + Response) * World.
Variable int_ : string → option Z.
Variable renders : string → bool.

Local Abbreviation dialogue :=
  (main_dialogue World requests_post int_ renders).
Local Abbreviation control :=
  (control_selected World requests_post int_ renders).
Local Abbreviation sample := (play_sample World requests_post renders).
Local Abbreviation play := (set_media_and_play World requests_post renders).

(** The network after [control_selected] is the network after the
    question about the sample video. *)
Lemma control_selected_net (d : DeviceInfo) (inputs : list string)
    (net : Net World) :
  (control d inputs net).2
  = match sample d inputs net with
    | PlayClosed => net
    | PlayRaised net1 => net1
    | PlayDone _ net1 => net1
    end.
Proof.
  unfold control_selected.
  destruct (sample d inputs net) as [| net1 | inputs1 net1]; try done.
  destruct (services d !! RenderingControl); [| done].
  destruct inputs1 as [| volume_str ?]; [done |].
  destruct (int_ volume_str) as [v |]; [| done].
  by destruct (valid_volume v).
Qed.

(** What the question about the sample video can do to the network. *)
Lemma control_selected_network (d : DeviceInfo) (inputs : list string)
    (net : Net World) :
  (control d inputs net).2 = net
  ∨ ∃ answer rest,
      inputs = answer :: rest
      ∧ Py.lower answer = "y"
      ∧ is_Some (services d !! AVTransport)
      ∧ (control d inputs net).2 = (play d SAMPLE_VIDEO net).2.
Proof.
  rewrite control_selected_net. unfold play_sample.
  destruct (services d !! AVTransport) as [av |] eqn:Hav; [| by left].
  destruct inputs as [| play_q inputs']; [by left |].
  destruct (String.eqb (Py.lower play_q) "y") eqn:Hy; [| by left].
  apply String.eqb_eq in Hy. right. exists play_q, inputs'.
  split; [done |]. split; [done |]. split; [by eexists |].
  by destruct (play d SAMPLE_VIDEO net) as [[b |] net1].
Qed.

(** Where [control_selected] starts the lock. *)
Lemma control_selected_lock (d d' : DeviceInfo) (inputs : list string)
    (net net' : Net World) (v : Z) :
  control d inputs net = (LockStarted d' v, net') →
  d' = d ∧ (0 ≤ v ≤ 100)%Z ∧ is_Some (services d !! RenderingControl).
Proof.
  unfold control_selected.
  destruct (sample d inputs net) as [| net1 | inputs1 net1]; try done.
  destruct (services d !! RenderingControl) as [rc |]; [| done].
  destruct inputs1 as [| volume_str ?]; [done |].
  destruct (int_ volume_str) as [volume |]; [| done].
  destruct (valid_volume volume) eqn:Hv; [| done].
  intros [= <- <- <-]. split; [done |]. split; [| by eexists].
  unfold valid_volume in Hv. apply andb_true_iff in Hv as [H1 H2].
  apply Z.leb_le in H1, H2. done.
Qed.

(** The device that a number selects. *)
Lemma main_dialogue_selected (devices : list (string * DeviceInfo))
    (choice : string) (rest : list string) (net : Net World) (i : nat)
    (name : string) (info : DeviceInfo) :
  devices !! i = Some (name, info) →
  Py.strip choice ≠ EmptyString →
  int_ choice = Some (Z.of_nat i + 1)%Z →
  renders (selected_text (friendly_name info)) = true →
  dialogue devices (choice :: rest) net = control info rest net.
Proof.
  intros Hi Hblank Hint Hr. unfold main_dialogue.
  destruct devices as [| item devices']; [done |].
  destruct (Py.strip choice) eqn:Hs; [done |]. rewrite Hint.
  assert (Hlen : i < length (item :: devices'))
    by (eapply lookup_lt_Some; done).
  assert (Hsel : valid_selection (Z.of_nat i + 1 - 1)
                   (length (item :: devices').*2) = true).
  { unfold valid_selection. rewrite length_fmap.
    apply andb_true_iff. split; [apply Z.leb_le | apply Z.ltb_lt]; lia. }
  rewrite Hsel.
  replace (Z.to_nat (Z.of_nat i + 1 - 1)) with i by lia.
  rewrite list_lookup_fmap, Hi. simpl. by rewrite Hr.
Qed.

(** X22. When the table is printed, the number shown in a row selects
    the device of that row: the rows are numbered from 1 in the order of
    the devices, one row per device, and a choice that reads as the
    number of a row carries on with the device of that row, once the
    console has rendered the message that names it. *)
Theorem number_selects_row (devices : list (string * DeviceInfo))
    (rows : list Row) (choice : string) (rest : list string)
    (net : Net World) (i : nat) (name : string) (info : DeviceInfo) :
  print_discovered_devices renders devices = Returns (DevicesTable rows) →
  devices !! i = Some (name, info) →
  Py.strip choice ≠ EmptyString →
  int_ choice = Some (Z.of_nat i + 1)%Z →
  renders (selected_text (friendly_name info)) = true →
  length rows = length devices
  ∧ rows !! i
    = Some {| row_number := pretty (i + 1);
              row_name := name;
              row_capabilities := join ", " (capabilities info);
              row_location := location info |}
  ∧ dialogue devices (choice :: rest) net = control info rest net.
Proof.
  intros Hp Hi Hblank Hint Hr.
  split; [| split; [| by eapply main_dialogue_selected]].
  - unfold print_discovered_devices in Hp.
    destruct devices as [| item devices']; [done |].
    destruct (forallb _ _); [| done]. injection Hp as <-.
    unfold table_rows. by rewrite length_imap.
  - unfold print_discovered_devices in Hp.
    destruct devices as [| item devices']; [done |].
    destruct (forallb _ _); [| done]. injection Hp as <-.
    unfold table_rows. by rewrite list_lookup_imap, Hi.
Qed.




(** X23. The lock is started only for a device of the list that has a
    RenderingControl endpoint, and only with a level in 0..100. *)
Theorem lock_started_valid (devices : list (string * DeviceInfo))
    (inputs : list string) (net net' : Net World) (d : DeviceInfo) (v : Z) :
  dialogue devices inputs net = (LockStarted d v, net') →
  (0 ≤ v ≤ 100)%Z
  ∧ is_Some (services d !! RenderingControl)
  ∧ d ∈ devices.*2.
Proof.
  unfold main_dialogue.
  destruct devices as [| item devices']; [done |].
  destruct inputs as [| choice inputs']; [done |].
  destruct (Py.strip choice); [done |].
  destruct (int_ choice) as [number |]; [| done].
  destruct (valid_selection _ _); [| done].
  destruct (_ !! _) as [selected |] eqn:Hsel; [| done].
  destruct (renders (selected_text _)); [| done].
  intros (-> & Hv & Hrc)%control_selected_lock.
  split; [done |]. split; [done |].
  by eapply list_elem_of_lookup_2.
Qed.

(** X24. A number that is not one of the table (zero, a negative number,
    a number beyond the last row) selects nothing, not even from the end
    of the list: the dialogue ends there and the network is not
    touched. *)
Theorem number_out_of_table (devices : list (string * DeviceInfo))
    (choice : string) (rest : list string) (net : Net World) (n : Z) :
  devices ≠ [] →
  Py.strip choice ≠ EmptyString →
  int_ choice = Some n →
  (n < 1 ∨ Z.of_nat (length devices) < n)%Z →
  dialogue devices (choice :: rest) net = (InvalidSelection, net).
Proof.
  intros Hne Hblank Hint Hn. unfold main_dialogue.
  destruct devices as [| item devices']; [done |].
  destruct (Py.strip choice); [done |]. rewrite Hint.
  assert (valid_selection (n - 1) (length (item :: devices').*2) = false)
    as ->; [| done].
  unfold valid_selection. rewrite length_fmap.
  apply andb_false_iff.
  destruct Hn; [left; apply Z.leb_gt | right; apply Z.ltb_ge]; lia.
Qed.

(** X25. The dialogue leaves the network as it was, unless the device
    that the number of the first line selects has an AVTransport
    endpoint and the next line, the answer to the question about the
    sample video, is [y] in lower case: the network is then what
    [set_media_and_play] of the sample video on that device leaves. *)
Theorem main_dialogue_network (devices : list (string * DeviceInfo))
    (inputs : list string) (net : Net World) :
  (dialogue devices inputs net).2 = net
  ∨ ∃ choice answer rest number selected,
      inputs = choice :: answer :: rest
      ∧ int_ choice = Some number
      ∧ (1 ≤ number)%Z
      ∧ devices.*2 !! Z.to_nat (number - 1) = Some selected
      ∧ is_Some (services selected !! AVTransport)
      ∧ Py.lower answer = "y"
      ∧ (dialogue devices inputs net).2
        = (play selected SAMPLE_VIDEO net).2.
Proof.
  unfold main_dialogue.
  destruct devices as [| item devices']; [by left |].
  destruct inputs as [| choice inputs']; [by left |].
  destruct (Py.strip choice); [by left |].
  destruct (int_ choice) as [number |] eqn:Hint; [| by left].
  destruct (valid_selection _ _) eqn:Hvalid; [| by left].
  destruct (_ !! _) as [selected |] eqn:Hsel; [| by left].
  destruct (renders (selected_text _)); [| by left].
  destruct (control_selected_network selected inputs' net)
    as [H | (answer & rest & -> & Hy & Hav & H)]; [by left |].
  right. exists choice, answer, rest, number, selected.
  split; [done |]. split; [done |]. split; [| done].
  unfold valid_selection in Hvalid.
  apply andb_true_iff in Hvalid as [H0 _]. apply Z.leb_le in H0. lia.
Qed.

End MainMore.

(* ===================================================================== *)
(** ** The properties above on concrete inputs *)
(* ===================================================================== *)

Lemma parse_device_descriptions_calls_witness :
  calls (Scripted.parse ["http://10.0.0.9/desc.xml"; Scripted.here]
           (Scripted.start
              [Scripted.status 404;
               Scripted.page Scripted.here "renderer"])).2
  = [] ++ ((λ loc, Get loc 3)
             <$> ["http://10.0.0.9/desc.xml"; Scripted.here]).
Proof.
  apply (parse_device_descriptions_calls Scripted.requests_get
           Scripted.fromstring Scripted.urljoin
           ["http://10.0.0.9/desc.xml"; Scripted.here]
           (Scripted.start
              [Scripted.status 404;
               Scripted.page Scripted.here "renderer"])).
  vm_compute. reflexivity.
Defined.

Lemma parse_device_descriptions_keys_witness :
  friendly_name Scripted.living_room = "Living Room"
  ∧ location Scripted.living_room
    ∈ ["http://10.0.0.9/desc.xml"; Scripted.here].
Proof.
  apply (parse_device_descriptions_keys Scripted.requests_get
           Scripted.fromstring Scripted.urljoin
           ["http://10.0.0.9/desc.xml"; Scripted.here]
           (Scripted.start
              [Scripted.page "http://10.0.0.9/desc.xml" "printer";
               Scripted.page Scripted.here "renderer"])).
  vm_compute. reflexivity.
Defined.

Lemma parse_device_descriptions_well_tagged_witness :
  (RenderingControl = AVTransport
   ∧ Py.contains AVTransport (service_type Scripted.rc_endpoint) = true)
  ∨ (RenderingControl = RenderingControl
     ∧ Py.contains RenderingControl (service_type Scripted.rc_endpoint) = true
     ∧ Py.contains AVTransport (service_type Scripted.rc_endpoint) = false).
Proof.
  apply (parse_device_descriptions_well_tagged Scripted.requests_get
           Scripted.fromstring Scripted.urljoin [Scripted.here]
           (Scripted.start [Scripted.page Scripted.here "renderer"])
           "Living Room" Scripted.living_room).
  - vm_compute. reflexivity.
  - vm_compute. reflexivity.
Defined.

Lemma parse_device_descriptions_trimmed_witness : trimmed "Kitchen".
Proof.
  apply (parse_device_descriptions_trimmed Scripted.requests_get
           Scripted.fromstring_more Scripted.urljoin [Scripted.there]
           (Scripted.start [Scripted.page Scripted.there "padded"])
           "Kitchen" Scripted.kitchen).
  vm_compute. reflexivity.
Defined.

Lemma last_location_wins_witness :
  (Scripted.resolve ∅ ([Scripted.here] ++ [Scripted.there])
     (Scripted.start [Scripted.page Scripted.here "renderer";
                      Scripted.page Scripted.there "renderer+"])).1
    !! "Living Room"
  = Some Scripted.living_room_there.
Proof.
  apply (last_location_wins Scripted.requests_get Scripted.fromstring
           Scripted.urljoin ∅ [Scripted.here] Scripted.there
           (Scripted.start [Scripted.page Scripted.here "renderer";
                            Scripted.page Scripted.there "renderer+"])
           {| status_code := 200; url := Scripted.there;
              content := "renderer+" |} [] Scripted.living_room_there);
    vm_compute; reflexivity.
Defined.

Lemma failed_fetch_skipped_witness :
  Scripted.resolve ∅ [Scripted.there; Scripted.here]
    (Scripted.start [Scripted.status 404;
                     Scripted.page Scripted.here "renderer"])
  = Scripted.resolve ∅ [Scripted.here]
      (fetched Scripted.requests_get Scripted.there
         (Scripted.start [Scripted.status 404;
                          Scripted.page Scripted.here "renderer"])).
Proof.
  apply (failed_fetch_skipped Scripted.requests_get Scripted.fromstring
           Scripted.urljoin ∅ Scripted.there [Scripted.here]).
  right. eexists _, _. split; [reflexivity |]. simpl. lia.
Defined.

Lemma nameless_document_skipped_witness :
  Scripted.resolve_more ∅ [Scripted.there; Scripted.here]
    (Scripted.start [Scripted.page Scripted.there "empty";
                     Scripted.page Scripted.here "renderer"])
  = Scripted.resolve_more ∅ [Scripted.here]
      (fetched Scripted.requests_get Scripted.there
         (Scripted.start [Scripted.page Scripted.there "empty";
                          Scripted.page Scripted.here "renderer"])).
Proof.
  apply (nameless_document_skipped Scripted.requests_get
           Scripted.fromstring_more Scripted.urljoin ∅ Scripted.there
           [Scripted.here] _
           {| status_code := 200; url := Scripted.there; content := "empty" |}
           [Scripted.page Scripted.here "renderer"] Scripted.empty_doc);
    reflexivity.
Defined.

Lemma last_service_wins_witness :
  add_services Scripted.urljoin Scripted.here ∅
    ([Scripted.av_entry; Scripted.rc_entry] ++ [Scripted.av2_entry])
  = Some (<[AVTransport := Scripted.av2_endpoint]>
          (<[RenderingControl := Scripted.rc_endpoint]>
           (<[AVTransport := Scripted.av_endpoint]> ∅))).
Proof.
  apply (last_service_wins Scripted.urljoin Scripted.here ∅ _
           [Scripted.av_entry; Scripted.rc_entry] Scripted.av2_entry
           (Scripted.leaf "serviceType" (service_type Scripted.av2_endpoint))
           (Scripted.leaf "controlURL" (control_url Scripted.av2_endpoint))
           (service_type Scripted.av2_endpoint)
           (control_url Scripted.av2_endpoint)
           (control_url Scripted.av2_endpoint)); reflexivity.
Defined.

Lemma discover_devices_without_sockets_witness :
  result (Scripted.discover Scripted.unbindable Scripted.no_sockets
            Scripted.lan_net) = Normal ∅
  ∧ found_locations (Scripted.discover Scripted.unbindable
                       Scripted.no_sockets Scripted.lan_net) = ∅
  ∧ net_after (Scripted.discover Scripted.unbindable Scripted.no_sockets
                 Scripted.lan_net) = Scripted.lan_net.
Proof.
  apply (discover_devices_without_sockets Scripted.requests_get
           Scripted.fromstring Scripted.urljoin Scripted.unbindable
           Scripted.no_sockets Scripted.lan_net).
  simpl. repeat constructor. discriminate.
Defined.

Lemma discover_devices_keeps_other_sockets_witness :
  1 ∈ open_fds (sock_state (Scripted.discover Scripted.lan
                              Scripted.busy_sockets Scripted.lan_net)).
Proof.
  apply (discover_devices_keeps_other_sockets Scripted.requests_get
           Scripted.fromstring Scripted.urljoin Scripted.lan
           Scripted.busy_sockets Scripted.lan_net 1).
  - simpl. repeat constructor.
  - apply list_elem_of_here.
Defined.

Lemma discover_devices_locations_trimmed_witness :
  trimmed "http://10.0.0.5:1400/desc.xml".
Proof.
  apply (discover_devices_locations_trimmed Scripted.requests_get
           Scripted.fromstring Scripted.urljoin Scripted.lan
           Scripted.no_sockets Scripted.lan_net).
  rewrite (proj1 lan_one_location). by apply elem_of_singleton.
Defined.

Lemma number_selects_row_witness :
  length (table_rows Scripted.two_devices) = 2
  ∧ table_rows Scripted.two_devices !! 1
    = Some {| row_number := "2";
              row_name := "Kitchen";
              row_capabilities := join ", " (capabilities Scripted.kitchen);
              row_location := Scripted.there |}
  ∧ Scripted.dialogue Scripted.two_devices [" 2 "; "30"] (Scripted.start [])
    = Scripted.control Scripted.kitchen ["30"] (Scripted.start []).
Proof.
  apply (number_selects_row Scripted.requests_post Scripted.int_
           Scripted.renders Scripted.two_devices
           (table_rows Scripted.two_devices) " 2 " ["30"]
           (Scripted.start []) 1 "Kitchen" Scripted.kitchen).
  - vm_compute. reflexivity.
  - reflexivity.
  - vm_compute. discriminate.
  - reflexivity.
  - vm_compute. reflexivity.
Defined.


Lemma lock_started_valid_witness :
  (0 ≤ 30 ≤ 100)%Z
  ∧ is_Some (services Scripted.kitchen !! RenderingControl)
  ∧ Scripted.kitchen ∈ Scripted.two_devices.*2.
Proof.
  apply (lock_started_valid Scripted.requests_post Scripted.int_
           Scripted.renders Scripted.two_devices ["2"; "30"]
           (Scripted.start []) (Scripted.start [])).
  vm_compute. reflexivity.
Defined.

Lemma number_out_of_table_witness :
  Scripted.dialogue Scripted.two_devices ["0"; "y"; "30"]
    (Scripted.start [Scripted.status 200])
  = (InvalidSelection, Scripted.start [Scripted.status 200])
  ∧ Scripted.dialogue Scripted.two_devices ["-1"; "y"; "30"]
      (Scripted.start [Scripted.status 200])
    = (InvalidSelection, Scripted.start [Scripted.status 200]).
Proof.
  split.
  - apply (number_out_of_table Scripted.requests_post Scripted.int_
             Scripted.renders Scripted.two_devices "0" ["y"; "30"]
             (Scripted.start [Scripted.status 200]) 0).
    + discriminate.
    + vm_compute. discriminate.
    + reflexivity.
    + left. lia.
  - apply (number_out_of_table Scripted.requests_post Scripted.int_
             Scripted.renders Scripted.two_devices "-1" ["y"; "30"]
             (Scripted.start [Scripted.status 200]) (-1)).
    + discriminate.
    + vm_compute. discriminate.
    + reflexivity.
    + left. lia.
Defined.

(** The whole dialogue: the first device, the video, the level 30. *)
Example dialogue_play_then_lock :
  Scripted.dialogue Scripted.two_devices ["1"; "Y"; "30"]
    (Scripted.start [Scripted.status 200; Scripted.status 200])
  = (LockStarted Scripted.renderer 30,
     (Scripted.play Scripted.renderer SAMPLE_VIDEO
        (Scripted.start [Scripted.status 200; Scripted.status 200])).2).
Proof. vm_compute. reflexivity. Qed.

(** A level beyond 100 is turned down. *)
Example dialogue_volume_out_of_range :
  Scripted.dialogue Scripted.two_devices ["2"; "101"] (Scripted.start [])
  = (VolumeOutOfRange, Scripted.start []).
Proof. vm_compute. reflexivity. Qed.

(** The device named [TV [/x]] ends the dialogue when it is selected. *)
Example dialogue_selected_name_raises :
  Scripted.dialogue [("TV [/x]", Scripted.tv)] ["1"; "y"; "30"]
    (Scripted.start [Scripted.status 200])
  = (MarkupRaised, Scripted.start [Scripted.status 200]).
Proof. vm_compute. reflexivity. Qed.
